(** * Position sizing stage of pysystemtrade: demand-driven cache and sizing formulas

    Shallow embedding of [systems/positionsizing.py] (class [PositionSizing])
    together with the pieces of [syscore] it calls.  Python floats are IEEE
    binary64 numbers, modelled by Rocq's primitive floats; the cache owned by
    the parent system is a finite map; a method call is a computation in a
    state-and-exception monad over that cache. *)

From Stdlib Require Import Floats.PrimFloat ZArith List.
From stdpp Require Import gmap strings list fin_maps.

Set Warnings "-register-all,-inexact-float".

Local Open Scope string_scope.
Local Open Scope Z_scope.

(** ** Python values *)

Module Py.

(** Exceptions a call can raise.  [OtherError] stands for any exception
    class not singled out here. *)
Inductive exn :=
| KeyError (k : string)
| AttributeError (name : string)
| TypeError
| ZeroDivisionError
| OtherError (msg : string).

Inductive result (A : Type) :=
| Ok (a : A)
| Raise (e : exn).
Arguments Ok {A} a.
Arguments Raise {A} e.

(** A Tx1 [pd.DataFrame]: one named column of floats over a date index
    (dates are day ordinals, in increasing order; a missing observation is
    [nan]). *)
Record frame := Frame { columns : string; rows : list (Z * float) }.

Inductive value :=
| VNone
| VFloat (x : float)
| VStr (s : string)
| VTuple (items : list value)
| VDict (d : gmap string value)
| VFrame (df : frame).

Definition frame_map (f : float -> float) (df : frame) : frame :=
  Frame (columns df) (map (fun r => (fst r, f (snd r))) (rows df)).

(** [a * b] for the operand kinds the stage uses: two floats, or a float and
    a frame (elementwise, the frame keeps its index and column). *)
Definition py_mul (a b : value) : result value :=
  match a, b with
  | VFloat x, VFloat y => Ok (VFloat (x * y)%float)
  | VFloat x, VFrame df => Ok (VFrame (frame_map (fun y => (x * y)%float) df))
  | VFrame df, VFloat y => Ok (VFrame (frame_map (fun x => (x * y)%float) df))
  | _, _ => Raise TypeError
  end.

(** [a / b].  Dividing a Python float by a zero float raises; pandas
    divides elementwise under IEEE rules and never raises. *)
Definition py_div (a b : value) : result value :=
  match a, b with
  | VFloat x, VFloat y =>
      if (y =? 0)%float then Raise ZeroDivisionError else Ok (VFloat (x / y)%float)
  | VFloat x, VFrame df => Ok (VFrame (frame_map (fun y => (x / y)%float) df))
  | VFrame df, VFloat y => Ok (VFrame (frame_map (fun x => (x / y)%float) df))
  | _, _ => Raise TypeError
  end.

(** [d[k]] *)
Definition py_getitem (d : value) (k : string) : result value :=
  match d with
  | VDict m => match m !! k with Some v => Ok v | None => Raise (KeyError k) end
  | VFrame _ => Raise (KeyError k)
  | _ => Raise TypeError
  end.

(** [df.columns = [name]] *)
Definition py_set_columns (v : value) (name : string) : result value :=
  match v with
  | VFrame df => Ok (VFrame (Frame name (rows df)))
  | _ => Raise (AttributeError "columns")
  end.

(** [(a, b) = t] *)
Definition py_unpack2 (t : value) : result (value * value) :=
  match t with
  | VTuple [a; b] => Ok (a, b)
  | _ => Raise TypeError
  end.

(** [x is not None] *)
Definition is_not_None (v : value) : bool :=
  match v with VNone => false | _ => true end.

End Py.
Export Py.

(** ** Series alignment ([syscore.pdutils]) *)

Module pdutils.

(** Sorted union of two increasing date indices. *)
Fixpoint union_index (a : list Z) : list Z -> list Z :=
  fix merge (b : list Z) : list Z :=
    match a, b with
    | [], _ => b
    | _, [] => a
    | x :: a', y :: b' =>
        if x <? y then x :: union_index a' b
        else if y <? x then y :: merge b'
        else x :: union_index a' b'
    end.

Fixpoint value_at (d : Z) (l : list (Z * float)) : float :=
  match l with
  | [] => nan
  | (d', x) :: t => if d =? d' then x else value_at d t
  end.

(** [df.reindex(idx)]: dates absent from [df] become missing. *)
Definition reindex (idx : list Z) (l : list (Z * float)) : list (Z * float) :=
  map (fun d => (d, value_at d l)) idx.

(** Forward fill: a missing entry takes the last value seen before it. *)
Fixpoint ffill_from (last : float) (l : list (Z * float)) : list (Z * float) :=
  match l with
  | [] => []
  | (d, x) :: t =>
      if is_nan x then (d, last) :: ffill_from last t
      else (d, x) :: ffill_from x t
  end.

Definition ffill (l : list (Z * float)) : list (Z * float) := ffill_from nan l.

Definition fill_if (flag : bool) (l : list (Z * float)) : list (Z * float) :=
  if flag then ffill l else l.

(** Modelled from the spec: [syscore/pdutils.py] is not among the sources.
    The spec (4.2, "Alignment rule") says each operand of a binary series
    combination is, when its flag is set, forward-filled over the missing
    dates before the elementwise operation.  The two operands are put on
    their joint index, filled as flagged, and multiplied row by row. *)
Definition multiply_df_single_column (a b : value) (ffill : bool * bool)
  : result value :=
  match a, b with
  | VFrame fa, VFrame fb =>
      let idx := union_index (map fst (rows fa)) (map fst (rows fb)) in
      let ra := fill_if (fst ffill) (reindex idx (rows fa)) in
      let rb := fill_if (snd ffill) (reindex idx (rows fb)) in
      Ok (VFrame (Frame (columns fa)
            (zip_with (fun p q => (fst p, (snd p * snd q)%float)) ra rb)))
  | _, _ => Raise TypeError
  end.

End pdutils.
Export pdutils.

(** Sequencing of calls that touch no state. *)
#[global] Instance result_ret : MRet result := @Ok.
#[global] Instance result_bind : MBind result := fun A B k r =>
  match r with Ok a => k a | Raise e => Raise e end.
#[global] Instance result_fmap : FMap result := fun A B f r =>
  match r with Ok a => Ok (f a) | Raise e => Raise e end.

(** ** The parent system: cache store and resolver ([syscore.objects]) *)

Module objects.

(** A cache slot is addressed by attribute name and key. *)
Abbreviation slot := (string * string)%type.

(** The mutable part of the parent system.  [cache] is the store the
    resolver reads and writes.  [calls] is a ghost log, never read by the
    program: the slots whose compute function has been entered since the
    slot was last invalidated, most recent first. *)
Record store := Store {
  cache : gmap slot value;
  calls : list slot
}.

Definition empty_store : store := Store ∅ [].

(** A Python call: it may read and write the store, and either returns or
    raises; effects made before a raise stay. *)
Definition M (A : Type) : Type := store -> result A * store.

Definition ret {A} (a : A) : M A := fun st => (Ok a, st).

Definition bind {A B} (m : M A) (k : A -> M B) : M B :=
  fun st =>
    match m st with
    | (Ok a, st') => k a st'
    | (Raise e, st') => (Raise e, st')
    end.

Definition lift {A} (r : result A) : M A := fun st => (r, st).

(** [try: body except: handler] with a bare [except], which catches every
    exception. *)
Definition try_except {A} (body handler : M A) : M A :=
  fun st =>
    match body st with
    | (Ok a, st') => (Ok a, st')
    | (Raise _, st') => handler st'
    end.

(** What a finished call returned, or [d] if it raised. *)
Definition returned {A} (r : result A * store) (d : A) : A :=
  match r.1 with Ok v => v | Raise _ => d end.

Definition enter (s : slot) : M unit :=
  fun st => (Ok tt, Store (cache st) (s :: calls st)).

Definition set_item (s : slot) (v : value) : M unit :=
  fun st => (Ok tt, Store (<[s := v]> (cache st)) (calls st)).

#[global] Instance M_ret : MRet M := @ret.
#[global] Instance M_bind : MBind M := fun A B k m => bind m k.

(** Modelled from the spec: [syscore/objects.py] is not among the sources.
    Spec 4.1: look up [(attribute_name, key)] in the store; if present,
    return it unchanged; if absent, invoke the compute function once, store
    its result under the slot and return it; if the compute function
    raises, nothing is stored and the exception propagates.  The compute
    function receives the system, the key and the calling stage. *)
Definition calc_or_cache {Sys Stage : Type}
    (system : Sys) (itemname key : string)
    (func : Sys -> string -> Stage -> M value) (this_subsystem : Stage)
  : M value :=
  fun st =>
    match cache st !! (itemname, key) with
    | Some v => (Ok v, st)
    | None =>
        (enter (itemname, key);;
         v ← func system key this_subsystem;
         set_item (itemname, key) v;;
         mret v) st
    end.

(** Modelled from the spec: the invalidation entry point lives in the
    absent [systems/basesystem.py].  Spec 4.4: clear every cache entry whose
    attribute is in the stage's volatile list, for all keys; leave the
    others.  The ghost log forgets the cleared slots with them. *)
Definition invalidate_stage (volatile : list string) (st : store) : store :=
  Store (filter (fun kv : slot * value => kv.1.1 ∉ volatile) (cache st))
        (filter (fun s : slot => s.1 ∉ volatile) (calls st)).

End objects.
Export objects.

(** ** Collaborators of the stage *)

(** The module-level names [positionsizing.py] imports from files that are
    not among the sources, taken as parameters: the all-instruments
    sentinel key of [syscore.objects], the four entries of the compiled
    defaults table of [systems.defaults] that the stage reads, and the
    number of business days in a year of [syscore.dateutils]. *)
Record SystemDefaults := {
  percentage_vol_target : value;
  notional_trading_capital : value;
  base_currency : value;
  average_absolute_forecast : value
}.

Class Imports := {
  ALL_KEYNAME : string;
  system_defaults : SystemDefaults;
  BUSINESS_DAYS_IN_YEAR : float
}.

(** Modelled from the spec: [syscore/dateutils.py] is not among the sources.
    Spec 4.2 gives the divisor of the annual target as the square root of
    the business days per year. *)
Definition ROOT_BDAYS_INYEAR `{Imports} : float := sqrt BUSINESS_DAYS_IN_YEAR.

(** What the stage reaches through its parent: [system.config.parameters],
    [system.data], [system.rawdata] and [system.combForecast].  Each is a
    function of its arguments that returns or raises (spec 1: collaborators
    are consumed as pure functions of an instrument code); whatever the
    upstream stages cache for themselves is outside this model.  The
    mutable cache is threaded separately as a [store]. *)
Record System := {
  config_parameters : string -> result value;
  data_get_fx_for_currency : string -> value -> result frame;
  data_get_value_of_block_price_move : string -> result float;
  rawdata_get_daily_percentage_volatility : string -> result frame;
  rawdata_daily_denominator_price : string -> result frame;
  combForecast_get_combined_forecast : string -> result frame
}.

(** ** The stage *)

Record PositionSizing := {
  _delete_on_recalc : list string;
  _dont_recalc : list string;
  name : string;
  _passed_percentage_vol_target : value;
  _passed_notional_trading_capital : value;
  _passed_base_currency : value
}.

Definition __init__ (percentage_vol_target notional_trading_capital
                     base_currency : value) : PositionSizing :=
  let delete_on_recalc :=
    ["_block_value"; "_instrument_currency_vol"; "_instrument_value_vol";
     "_vol_scalar"; "_subsys_position"; "_fx_rate"] in
  let dont_delete := ["_vol_target"] in
  {| _delete_on_recalc := delete_on_recalc;
     _dont_recalc := dont_delete;
     name := "positionSize";
     _passed_percentage_vol_target := percentage_vol_target;
     _passed_notional_trading_capital := notional_trading_capital;
     _passed_base_currency := base_currency |}.

Section Stage.
Context `{Imports}.

Definition get_combined_forecast (parent : System) (self : PositionSizing)
    (instrument_code : string) : M value :=
  df ← lift (combForecast_get_combined_forecast parent instrument_code);
  mret (VFrame df).

Definition get_price_volatility (parent : System) (self : PositionSizing)
    (instrument_code : string) : M value :=
  daily_perc_vol ←
    lift (rawdata_get_daily_percentage_volatility parent instrument_code);
  mret (VFrame daily_perc_vol).

Definition get_instrument_sizing_data (parent : System) (self : PositionSizing)
    (instrument_code : string) : M value :=
  underlying_price ← lift (rawdata_daily_denominator_price parent instrument_code);
  value_of_price_move ←
    lift (data_get_value_of_block_price_move parent instrument_code);
  mret (VTuple [VFrame underlying_price; VFloat value_of_price_move]).

Definition _get_vol_target (system : System) (an_ignored_variable : string)
    (this_subsystem : PositionSizing) : M value :=
  percentage_vol_target ←
    (if is_not_None (_passed_percentage_vol_target this_subsystem)
     then mret (_passed_percentage_vol_target this_subsystem)
     else try_except (lift (config_parameters system "percentage_vol_target"))
                     (mret (percentage_vol_target system_defaults)));
  notional_trading_capital ←
    (if is_not_None (_passed_notional_trading_capital this_subsystem)
     then mret (_passed_notional_trading_capital this_subsystem)
     else try_except (lift (config_parameters system "notional_trading_capital"))
                     (mret (notional_trading_capital system_defaults)));
  base_currency ←
    (if is_not_None (_passed_base_currency this_subsystem)
     then mret (_passed_base_currency this_subsystem)
     else try_except (lift (config_parameters system "base_currency"))
                     (mret (base_currency system_defaults)));
  product ← lift (py_mul notional_trading_capital percentage_vol_target);
  annual_cash_vol_target ← lift (py_div product (VFloat 100));
  daily_cash_vol_target ←
    lift (py_div annual_cash_vol_target (VFloat ROOT_BDAYS_INYEAR));
  mret (VDict (list_to_map
    [("base_currency", base_currency);
     ("percentage_vol_target", percentage_vol_target);
     ("notional_trading_capital", notional_trading_capital);
     ("annual_cash_vol_target", annual_cash_vol_target);
     ("daily_cash_vol_target", daily_cash_vol_target)])).

Definition get_daily_cash_vol_target (parent : System) (self : PositionSizing)
  : M value :=
  calc_or_cache parent "_vol_target" ALL_KEYNAME _get_vol_target self.

Definition _get_fx_rate (system : System) (instrument_code : string)
    (this_subsystem : PositionSizing) : M value :=
  vol_target_dict ← get_daily_cash_vol_target system this_subsystem;
  base_currency ← lift (py_getitem vol_target_dict "base_currency");
  fx_rate ← lift (data_get_fx_for_currency system instrument_code base_currency);
  mret (VFrame fx_rate).

Definition get_fx_rate (parent : System) (self : PositionSizing)
    (instrument_code : string) : M value :=
  calc_or_cache parent "_fx_rate" instrument_code _get_fx_rate self.

Definition _get_block_value (system : System) (instrument_code : string)
    (this_subsystem : PositionSizing) : M value :=
  sizing_data ← get_instrument_sizing_data system this_subsystem instrument_code;
  '(underlying_price, value_of_price_move) ← lift (py_unpack2 sizing_data);
  scaled ← lift (py_mul (VFloat 0.01) underlying_price);
  lift (py_mul scaled value_of_price_move).

Definition get_block_value (parent : System) (self : PositionSizing)
    (instrument_code : string) : M value :=
  calc_or_cache parent "_block_value" instrument_code _get_block_value self.

Definition _get_instrument_currency_vol (system : System)
    (instrument_code : string) (this_subsystem : PositionSizing) : M value :=
  block_value ← get_block_value system this_subsystem instrument_code;
  daily_perc_vol ← get_price_volatility system this_subsystem instrument_code;
  instr_ccy_vol ←
    lift (multiply_df_single_column block_value daily_perc_vol (true, false));
  lift (py_set_columns instr_ccy_vol "icv").

Definition get_instrument_currency_vol (parent : System) (self : PositionSizing)
    (instrument_code : string) : M value :=
  calc_or_cache parent "_instrument_currency_vol" instrument_code
                _get_instrument_currency_vol self.

Definition _get_instrument_value_vol (system : System)
    (instrument_code : string) (this_subsystem : PositionSizing) : M value :=
  instr_ccy_vol ← get_instrument_currency_vol system this_subsystem instrument_code;
  fx_rate ← get_fx_rate system this_subsystem instrument_code;
  instr_value_vol ←
    lift (multiply_df_single_column instr_ccy_vol fx_rate (false, true));
  lift (py_set_columns instr_value_vol "ivv").

Definition get_instrument_value_vol (parent : System) (self : PositionSizing)
    (instrument_code : string) : M value :=
  calc_or_cache parent "_instrument_value_vol" instrument_code
                _get_instrument_value_vol self.

Definition _get_volatility_scalar (system : System)
    (instrument_code : string) (this_subsystem : PositionSizing) : M value :=
  instr_value_vol ← get_instrument_value_vol system this_subsystem instrument_code;
  vol_target_dict ← get_daily_cash_vol_target system this_subsystem;
  cash_vol_target ← lift (py_getitem vol_target_dict "daily_cash_vol_target");
  vol_scalar ← lift (py_div cash_vol_target instr_value_vol);
  lift (py_set_columns vol_scalar "vol_scalar").

Definition get_volatility_scalar (parent : System) (self : PositionSizing)
    (instrument_code : string) : M value :=
  calc_or_cache parent "_vol_scalar" instrument_code _get_volatility_scalar self.

Definition _get_subsys_position (system : System)
    (instrument_code : string) (this_subsystem : PositionSizing) : M value :=
  let avg_abs_forecast := average_absolute_forecast system_defaults in
  vol_scalar ← get_volatility_scalar system this_subsystem instrument_code;
  forecast ← get_combined_forecast system this_subsystem instrument_code;
  product ← lift (multiply_df_single_column vol_scalar forecast (true, false));
  subsys_position ← lift (py_div product avg_abs_forecast);
  lift (py_set_columns subsys_position "ss_position").

Definition get_subsys_position (parent : System) (self : PositionSizing)
    (instrument_code : string) : M value :=
  calc_or_cache parent "_subsys_position" instrument_code _get_subsys_position self.

End Stage.

(** ** The stage's public accessors, as one family *)

Inductive accessor :=
| CombinedForecast
| PriceVolatility
| InstrumentSizingData
| DailyCashVolTarget
| FxRate
| BlockValue
| InstrumentCurrencyVol
| InstrumentValueVol
| VolatilityScalar
| SubsysPosition.

#[global] Instance accessor_eq_dec : EqDecision accessor.
Proof. solve_decision. Defined.

Section Accessors.
Context `{Imports}.

(** Calling an accessor by name; [get_daily_cash_vol_target] takes no
    instrument code. *)
Definition call (a : accessor) (parent : System) (self : PositionSizing)
    (instrument_code : string) : M value :=
  match a with
  | CombinedForecast => get_combined_forecast parent self instrument_code
  | PriceVolatility => get_price_volatility parent self instrument_code
  | InstrumentSizingData => get_instrument_sizing_data parent self instrument_code
  | DailyCashVolTarget => get_daily_cash_vol_target parent self
  | FxRate => get_fx_rate parent self instrument_code
  | BlockValue => get_block_value parent self instrument_code
  | InstrumentCurrencyVol => get_instrument_currency_vol parent self instrument_code
  | InstrumentValueVol => get_instrument_value_vol parent self instrument_code
  | VolatilityScalar => get_volatility_scalar parent self instrument_code
  | SubsysPosition => get_subsys_position parent self instrument_code
  end.

(** The slot an accessor hands to the resolver, and the local function it
    hands over; the three input accessors hand over nothing. *)
Definition slot_of (a : accessor) (instrument_code : string) : option slot :=
  match a with
  | CombinedForecast | PriceVolatility | InstrumentSizingData => None
  | DailyCashVolTarget => Some ("_vol_target", ALL_KEYNAME)
  | FxRate => Some ("_fx_rate", instrument_code)
  | BlockValue => Some ("_block_value", instrument_code)
  | InstrumentCurrencyVol => Some ("_instrument_currency_vol", instrument_code)
  | InstrumentValueVol => Some ("_instrument_value_vol", instrument_code)
  | VolatilityScalar => Some ("_vol_scalar", instrument_code)
  | SubsysPosition => Some ("_subsys_position", instrument_code)
  end.

Definition compute_fn (a : accessor)
  : option (System -> string -> PositionSizing -> M value) :=
  match a with
  | CombinedForecast | PriceVolatility | InstrumentSizingData => None
  | DailyCashVolTarget => Some _get_vol_target
  | FxRate => Some _get_fx_rate
  | BlockValue => Some _get_block_value
  | InstrumentCurrencyVol => Some _get_instrument_currency_vol
  | InstrumentValueVol => Some _get_instrument_value_vol
  | VolatilityScalar => Some _get_volatility_scalar
  | SubsysPosition => Some _get_subsys_position
  end.

(** A caller making a series of accessor calls; the first exception ends
    the series. *)
Fixpoint run_all (parent : System) (self : PositionSizing)
    (prog : list (accessor * string)) : M (list value) :=
  match prog with
  | [] => mret []
  | (a, code) :: rest =>
      v ← call a parent self code;
      vs ← run_all parent self rest;
      mret (v :: vs)
  end.

End Accessors.

(** The resolver's cache-miss path: enter the compute function, store and
    return what it yields. *)
Definition on_miss (s : slot) (m : M value) : M value :=
  enter s;; v ← m; set_item s v;; mret v.

(** ** Properties of computations *)

(** Depth of an attribute in the stage's dependency graph: an accessor only
    calls cached accessors of smaller depth.  Foreign attributes have depth
    0. *)
Definition level (attr : string) : nat :=
  if decide (attr = "_vol_target") then 1
  else if decide (attr = "_fx_rate") then 2
  else if decide (attr = "_block_value") then 3
  else if decide (attr = "_instrument_currency_vol") then 4
  else if decide (attr = "_instrument_value_vol") then 5
  else if decide (attr = "_vol_scalar") then 6
  else if decide (attr = "_subsys_position") then 7
  else 0.

(** [grows n st st']: going from [st] to [st'], every entry present stays
    as it is, the call log gains entries for slots that were empty in [st]
    and nothing else, and slots deeper than [n] are not touched. *)
Record grows (n : nat) (st st' : store) : Prop := {
  grows_keeps : forall s v, cache st !! s = Some v -> cache st' !! s = Some v;
  grows_entered : exists new : list slot,
                    calls st' = (new ++ calls st)%list /\
                    forall s, s ∈ new -> cache st !! s = None;
  grows_frame : forall s, (n < level s.1)%nat -> cache st' !! s = cache st !! s
}.

Definition respects {A} (R : store -> store -> Prop) (m : M A) : Prop :=
  forall st r st', m st = (r, st') -> R st st'.

Definition preserves {A} (I : store -> Prop) (m : M A) : Prop :=
  forall st a st', I st -> m st = (Ok a, st') -> I st'.

(** Bookkeeping between the call log and the cache while the compute
    functions of the slots in [pending] are running: no slot was entered
    twice, every entered slot is either filled or pending, and every
    filled slot was entered. *)
Record consistent (pending : list slot) (st : store) : Prop := {
  cons_nodup : NoDup (calls st);
  cons_filled : forall s, s ∈ calls st -> is_Some (cache st !! s) \/ s ∈ pending;
  cons_entered : forall s, is_Some (cache st !! s) -> s ∈ calls st
}.

Definition above (n : nat) (pending : list slot) : Prop :=
  forall s, s ∈ pending -> (n < level s.1)%nat.

(** ** The three-tier fallback, in the spec's words *)

(** Spec 4.2: explicit constructor override, else configuration lookup,
    else compiled default. *)
Definition three_tier (override : value) (configured : result value)
    (default : value) : value :=
  match override with
  | VNone =>
      match configured with
      | Ok v => v
      | Raise _ => default
      end
  | v => v
  end.

(** The dictionary built from resolved parameters. *)
Definition vol_target_dict `{Imports} (pct capital currency : value)
  : result value :=
  match py_mul capital pct with
  | Ok product =>
      match py_div product (VFloat 100) with
      | Ok annual =>
          match py_div annual (VFloat (sqrt BUSINESS_DAYS_IN_YEAR)) with
          | Ok daily =>
              Ok (VDict (<["base_currency" := currency]>
                        (<["percentage_vol_target" := pct]>
                        (<["notional_trading_capital" := capital]>
                        (<["annual_cash_vol_target" := annual]>
                        (<["daily_cash_vol_target" := daily]> ∅))))))
          | Raise e => Raise e
          end
      | Raise e => Raise e
      end
  | Raise e => Raise e
  end.

(** The three parameters as the stage resolves them. *)
Section Resolved.
Context `{Imports}.
Implicit Types (system : System) (self : PositionSizing).

Definition resolved_percentage_vol_target system self : value :=
  three_tier (_passed_percentage_vol_target self)
             (config_parameters system "percentage_vol_target")
             (percentage_vol_target system_defaults).

Definition resolved_notional_trading_capital system self : value :=
  three_tier (_passed_notional_trading_capital self)
             (config_parameters system "notional_trading_capital")
             (notional_trading_capital system_defaults).

Definition resolved_base_currency system self : value :=
  three_tier (_passed_base_currency self)
             (config_parameters system "base_currency")
             (base_currency system_defaults).

End Resolved.

(** The entry of a series on a date. *)
Definition value_on (d : Z) (v : value) : float :=
  match v with
  | VFrame df => value_at d (rows df)
  | _ => nan
  end.

(** An accessor "stores and returns its result through a cache attribute":
    there is an attribute under which, after any successful call, the
    returned value sits in the cache. *)
Definition caches_its_result `{Imports} (a : accessor) : Prop :=
  exists attr, forall parent self code st v st',
    call a parent self code st = (Ok v, st') ->
    exists key, cache st' !! (attr, key) = Some v.

(** ** The sizing formulas, in the spec's words *)

(** Spec 4.2: a product of two series with per-operand forward fill, under
    a new column name. *)
Definition filled_product (a b : value) (fill : bool * bool) (column : string)
  : result value :=
  product ← multiply_df_single_column a b fill;
  py_set_columns product column.

(** Spec 4.2: [(volatility_scalar * combined_forecast) /
    average_absolute_forecast], filling the scalar but not the forecast. *)
Definition position_formula (vol_scalar forecast average : value) : result value :=
  product ← multiply_df_single_column vol_scalar forecast (true, false);
  position ← py_div product average;
  py_set_columns position "ss_position".

(** The same system with one configuration entry replaced. *)
Definition with_parameter (system : System) (key : string)
    (entry : result value) : System :=
  {| config_parameters := fun k =>
       if decide (k = key) then entry else config_parameters system k;
     data_get_fx_for_currency := data_get_fx_for_currency system;
     data_get_value_of_block_price_move := data_get_value_of_block_price_move system;
     rawdata_get_daily_percentage_volatility :=
       rawdata_get_daily_percentage_volatility system;
     rawdata_daily_denominator_price := rawdata_daily_denominator_price system;
     combForecast_get_combined_forecast := combForecast_get_combined_forecast system |}.

(** [x] is within [tol] of [y]. *)
Definition approx (x y tol : float) : bool := (abs (x - y) <? tol)%float.

(** ** A small system to evaluate on *)

Module Example.

Definition imports : Imports := {|
  ALL_KEYNAME := "all";
  system_defaults := {|
    percentage_vol_target := VFloat 16;
    notional_trading_capital := VFloat 1000000;
    base_currency := VStr "USD";
    average_absolute_forecast := VFloat 10 |};
  BUSINESS_DAYS_IN_YEAR := 256 |}.

(** Configuration with a base currency and a percentage target only. *)
Definition parameters (k : string) : result value :=
  if decide (k = "base_currency") then Ok (VStr "GBP")
  else if decide (k = "percentage_vol_target") then Ok (VFloat 10)
  else Raise (KeyError k).

(** Two dates; the price is missing on the second one, and there is no FX
    series for the instrument [NOFX]. *)
Definition system : System := {|
  config_parameters := parameters;
  data_get_fx_for_currency := fun code currency =>
    if decide (code = "NOFX") then Raise (OtherError "no fx data")
    else Ok (Frame "fx" [(1, 1%float); (2, nan)]);
  data_get_value_of_block_price_move := fun code => Ok 100%float;
  rawdata_get_daily_percentage_volatility := fun code =>
    Ok (Frame "vol" [(1, 0.01%float); (2, 0.02%float)]);
  rawdata_daily_denominator_price := fun code =>
    Ok (Frame "price" [(1, 100%float); (2, nan)]);
  combForecast_get_combined_forecast := fun code =>
    Ok (Frame "comb_forecast" [(1, 7.62%float); (2, 7.62%float)]) |}.

(** The same system once FX data exists for every instrument. *)
Definition system_with_fx : System := {|
  config_parameters := parameters;
  data_get_fx_for_currency := fun code currency =>
    Ok (Frame "fx" [(1, 1%float); (2, nan)]);
  data_get_value_of_block_price_move := data_get_value_of_block_price_move system;
  rawdata_get_daily_percentage_volatility :=
    rawdata_get_daily_percentage_volatility system;
  rawdata_daily_denominator_price := rawdata_daily_denominator_price system;
  combForecast_get_combined_forecast := combForecast_get_combined_forecast system |}.

(** A system whose configuration object has no [parameters] attribute. *)
Definition system_without_parameters : System := {|
  config_parameters := fun k => Raise (AttributeError "parameters");
  data_get_fx_for_currency := data_get_fx_for_currency system;
  data_get_value_of_block_price_move := data_get_value_of_block_price_move system;
  rawdata_get_daily_percentage_volatility :=
    rawdata_get_daily_percentage_volatility system;
  rawdata_daily_denominator_price := rawdata_daily_denominator_price system;
  combForecast_get_combined_forecast := combForecast_get_combined_forecast system |}.

(** A store in which the instrument value volatility of EDOLLAR is already
    cached, as 5.97 on the first date. *)
Definition store_with_value_vol : store :=
  Store {[ ("_instrument_value_vol", "EDOLLAR")
             := VFrame (Frame "ivv" [(1, 5.97%float)]) ]}
        [("_instrument_value_vol", "EDOLLAR")].

Definition stage : PositionSizing := __init__ VNone VNone VNone.

End Example.

(** ** What each accessor computes when nothing is cached *)

(** The bodies of the stage's local functions with every nested accessor
    call replaced by that accessor's own direct value: the computation
    from the inputs alone, with no store. *)
Section Direct.
Context `{Imports}.
Implicit Types (parent : System) (self : PositionSizing).

Definition direct_combined_forecast parent (code : string) : result value :=
  df ← combForecast_get_combined_forecast parent code;
  mret (VFrame df).

Definition direct_price_volatility parent (code : string) : result value :=
  daily_perc_vol ← rawdata_get_daily_percentage_volatility parent code;
  mret (VFrame daily_perc_vol).

Definition direct_instrument_sizing_data parent (code : string) : result value :=
  underlying_price ← rawdata_daily_denominator_price parent code;
  value_of_price_move ← data_get_value_of_block_price_move parent code;
  mret (VTuple [VFrame underlying_price; VFloat value_of_price_move]).

Definition direct_daily_cash_vol_target parent self : result value :=
  vol_target_dict (resolved_percentage_vol_target parent self)
                  (resolved_notional_trading_capital parent self)
                  (resolved_base_currency parent self).

Definition direct_fx_rate parent self (code : string) : result value :=
  vol_target ← direct_daily_cash_vol_target parent self;
  base_currency ← py_getitem vol_target "base_currency";
  fx_rate ← data_get_fx_for_currency parent code base_currency;
  mret (VFrame fx_rate).

Definition direct_block_value parent (code : string) : result value :=
  sizing_data ← direct_instrument_sizing_data parent code;
  '(underlying_price, value_of_price_move) ← py_unpack2 sizing_data;
  scaled ← py_mul (VFloat 0.01) underlying_price;
  py_mul scaled value_of_price_move.

Definition direct_instrument_currency_vol parent (code : string) : result value :=
  block_value ← direct_block_value parent code;
  daily_perc_vol ← direct_price_volatility parent code;
  instr_ccy_vol ← multiply_df_single_column block_value daily_perc_vol (true, false);
  py_set_columns instr_ccy_vol "icv".

Definition direct_instrument_value_vol parent self (code : string) : result value :=
  instr_ccy_vol ← direct_instrument_currency_vol parent code;
  fx_rate ← direct_fx_rate parent self code;
  instr_value_vol ← multiply_df_single_column instr_ccy_vol fx_rate (false, true);
  py_set_columns instr_value_vol "ivv".

Definition direct_volatility_scalar parent self (code : string) : result value :=
  instr_value_vol ← direct_instrument_value_vol parent self code;
  vol_target ← direct_daily_cash_vol_target parent self;
  cash_vol_target ← py_getitem vol_target "daily_cash_vol_target";
  vol_scalar ← py_div cash_vol_target instr_value_vol;
  py_set_columns vol_scalar "vol_scalar".

Definition direct_subsys_position parent self (code : string) : result value :=
  vol_scalar ← direct_volatility_scalar parent self code;
  forecast ← direct_combined_forecast parent code;
  product ← multiply_df_single_column vol_scalar forecast (true, false);
  subsys_position ← py_div product (average_absolute_forecast system_defaults);
  py_set_columns subsys_position "ss_position".

Definition direct (a : accessor) parent self (code : string) : result value :=
  match a with
  | CombinedForecast => direct_combined_forecast parent code
  | PriceVolatility => direct_price_volatility parent code
  | InstrumentSizingData => direct_instrument_sizing_data parent code
  | DailyCashVolTarget => direct_daily_cash_vol_target parent self
  | FxRate => direct_fx_rate parent self code
  | BlockValue => direct_block_value parent code
  | InstrumentCurrencyVol => direct_instrument_currency_vol parent code
  | InstrumentValueVol => direct_instrument_value_vol parent self code
  | VolatilityScalar => direct_volatility_scalar parent self code
  | SubsysPosition => direct_subsys_position parent self code
  end.

(** A store agrees with a system and a stage when every entry it holds in
    one of the stage's slots is the direct value of the accessor that
    fills the slot. *)
Definition coherent parent self (st : store) : Prop :=
  forall a code s v,
    slot_of a code = Some s -> cache st !! s = Some v ->
    direct a parent self code = Ok v.

End Direct.

(** [m] behaves as the stateless computation [p]: from a store satisfying
    [I] it ends, whether it returns or raises, with the outcome [p] and in
    a store satisfying [I]. *)
Definition transparent {A} (I : store -> Prop) (m : M A) (p : result A) : Prop :=
  forall st r st', I st -> m st = (r, st') -> r = p /\ I st'.

(** The slots a call for [code] may write: the stage's seven attributes,
    under the instrument's key, or the volatility target's one slot. *)
Definition own_slot `{Imports} (code : string) (s : slot) : Prop :=
  s = ("_vol_target", ALL_KEYNAME) \/
  (s.2 = code /\
   s.1 ∈ ["_fx_rate"; "_block_value"; "_instrument_currency_vol";
          "_instrument_value_vol"; "_vol_scalar"; "_subsys_position"]).

(** Every entry outside the slots of [code] is as before. *)
Definition only_touches `{Imports} (code : string) (st st' : store) : Prop :=
  forall s, ~ own_slot code s -> cache st' !! s = cache st !! s.

(** ** Two more systems to evaluate on *)

Module Scenarios.

(** The example system before any combined forecast exists. *)
Definition system_without_forecast : System := {|
  config_parameters := Example.parameters;
  data_get_fx_for_currency := data_get_fx_for_currency Example.system;
  data_get_value_of_block_price_move :=
    data_get_value_of_block_price_move Example.system;
  rawdata_get_daily_percentage_volatility :=
    rawdata_get_daily_percentage_volatility Example.system;
  rawdata_daily_denominator_price := rawdata_daily_denominator_price Example.system;
  combForecast_get_combined_forecast := fun code =>
    Raise (OtherError "no forecast") |}.

(** A stage built with a capital that is not a number. *)
Definition stage_with_bad_capital : PositionSizing :=
  __init__ VNone (VStr "lots") VNone.

(** A data source that answers in the currency it is asked for: the rate
    is 2 against CHF and 1 otherwise. *)
Definition system_by_currency : System := {|
  config_parameters := Example.parameters;
  data_get_fx_for_currency := fun code currency =>
    match currency with
    | VStr "CHF" => Ok (Frame "fx" [(1, 2%float)])
    | _ => Ok (Frame "fx" [(1, 1%float)])
    end;
  data_get_value_of_block_price_move :=
    data_get_value_of_block_price_move Example.system;
  rawdata_get_daily_percentage_volatility :=
    rawdata_get_daily_percentage_volatility Example.system;
  rawdata_daily_denominator_price := rawdata_daily_denominator_price Example.system;
  combForecast_get_combined_forecast :=
    combForecast_get_combined_forecast Example.system |}.

End Scenarios.

(** ** The roll calendar script ([sysinit/futures/rollcalendars_from_arcticprices_to_csv.py]) *)

Module rollcalendars.

(** What the script does to the outside world, in the order it does it:
    lines printed, questions asked on the terminal, and calls of
    [add_roll_calendar] on the csv store. *)
Inductive event (Calendar : Type) :=
| Printed (text : string)
| PrintedCalendar (calendar : Calendar)
| Asked (prompt : string)
| AddRollCalendar (datapath : option string) (instrument_code : string)
                  (calendar : Calendar) (ignore_duplication : bool).
Arguments Printed {Calendar} text.
Arguments PrintedCalendar {Calendar} calendar.
Arguments Asked {Calendar} prompt.
Arguments AddRollCalendar {Calendar} datapath instrument_code calendar
  ignore_duplication.

(** The terminal and the log of events, most recent first. *)
Record world (Calendar : Type) := World {
  log : list (event Calendar);
  stdin : list string
}.
Arguments World {Calendar} log stdin.
Arguments log {Calendar} w.
Arguments stdin {Calendar} w.

(** The classes the script imports from [sysdata] and [sysobjects], none of
    them among the sources, taken as parameters: each constructor and each
    method returns or raises.  The two checks return a verdict of some
    type [Verdict]; the script calls them as statements and drops what
    they return. *)
Record Collaborators (AllPrices Prices Parameters Calendar Verdict : Type) := {
  arcticFuturesContractPriceData : result unit;
  mongoRollParametersData : result unit;
  csvRollCalendarData : option string -> result unit;
  get_all_prices_for_instrument : string -> result AllPrices;
  final_prices : AllPrices -> result Prices;
  get_roll_parameters : string -> result Parameters;
  create_from_prices : Prices -> Parameters -> result Calendar;
  check_if_date_index_monotonic : Calendar -> result Verdict;
  check_dates_are_valid_for_prices : Calendar -> Prices -> result Verdict;
  add_roll_calendar : option string -> string -> Calendar -> bool -> result unit;
  get_roll_calendar : option string -> string -> result Calendar
}.
Arguments arcticFuturesContractPriceData {_ _ _ _ _} c.
Arguments mongoRollParametersData {_ _ _ _ _} c.
Arguments csvRollCalendarData {_ _ _ _ _} c datapath.
Arguments get_all_prices_for_instrument {_ _ _ _ _} c instrument_code.
Arguments final_prices {_ _ _ _ _} c prices.
Arguments get_roll_parameters {_ _ _ _ _} c instrument_code.
Arguments create_from_prices {_ _ _ _ _} c prices parameters.
Arguments check_if_date_index_monotonic {_ _ _ _ _} c calendar.
Arguments check_dates_are_valid_for_prices {_ _ _ _ _} c calendar prices.
Arguments add_roll_calendar {_ _ _ _ _} c datapath instrument_code calendar
  ignore_duplication.
Arguments get_roll_calendar {_ _ _ _ _} c datapath instrument_code.

Section Script.
Context {AllPrices Prices Parameters Calendar Verdict : Type}.
Context (lib : Collaborators AllPrices Prices Parameters Calendar Verdict).

(** A step of the script: it may print, ask and write, and returns or
    raises. *)
Definition IO (A : Type) : Type :=
  world Calendar -> result A * world Calendar.

#[local] Instance IO_ret : MRet IO := fun A a w => (Ok a, w).
#[local] Instance IO_bind : MBind IO := fun A B k m w =>
  match m w with
  | (Ok a, w') => k a w'
  | (Raise e, w') => (Raise e, w')
  end.

Definition call_lib {A} (r : result A) : IO A := fun w => (r, w).

(** [print(text)] *)
Definition print (text : string) : IO unit :=
  fun w => (Ok tt, World (Printed text :: log w) (stdin w)).

Definition print_calendar (calendar : Calendar) : IO unit :=
  fun w => (Ok tt, World (PrintedCalendar calendar :: log w) (stdin w)).

(** [input(prompt)]: shows the prompt and reads a line; at the end of the
    input it raises [EOFError]. *)
Definition input (prompt : string) : IO string :=
  fun w =>
    match stdin w with
    | line :: rest => (Ok line, World (Asked prompt :: log w) rest)
    | [] => (Raise (OtherError "EOFError"), World (Asked prompt :: log w) [])
    end.

(** [csv_roll_calendars.add_roll_calendar(...)] on the store opened on
    [datapath]. *)
Definition csv_add_roll_calendar (datapath : option string)
    (instrument_code : string) (calendar : Calendar)
    (ignore_duplication : bool) : IO unit :=
  fun w =>
    (add_roll_calendar lib datapath instrument_code calendar ignore_duplication,
     World (AddRollCalendar datapath instrument_code calendar ignore_duplication
              :: log w) (stdin w)).

(** ["%s" % output_datapath] *)
Definition str_of_datapath (datapath : option string) : string :=
  match datapath with Some path => path | None => "None" end.

Definition build_and_write_roll_calendar (instrument_code : string)
    (output_datapath : option string) (check_before_writing : bool)
  : IO Calendar :=
  (if output_datapath is None
   then print "*** WARNING *** This will overwrite the provided roll calendar. Better to use a temporary directory!"
   else mret tt);;
  artic_prices ← call_lib (arcticFuturesContractPriceData lib);
  mongo_rollparameters ← call_lib (mongoRollParametersData lib);
  csv_roll_calendars ← call_lib (csvRollCalendarData lib output_datapath);
  dict_of_all_futures_contract_prices ←
    call_lib (get_all_prices_for_instrument lib instrument_code);
  dict_of_futures_contract_prices ←
    call_lib (final_prices lib dict_of_all_futures_contract_prices);
  roll_parameters_object ← call_lib (get_roll_parameters lib instrument_code);
  print "Prepping roll calendar... might take a few seconds";;
  roll_calendar ←
    call_lib (create_from_prices lib dict_of_futures_contract_prices
                roll_parameters_object);
  call_lib (check_if_date_index_monotonic lib roll_calendar);;
  call_lib (check_dates_are_valid_for_prices lib roll_calendar
              dict_of_futures_contract_prices);;
  check_happy_to_write ←
    (if check_before_writing
     then input ("Are you ok to write this csv to path "
                 +:+ str_of_datapath output_datapath
                 +:+ "? [might be worth writing and hacking manually] (yes/other)?")
     else mret "yes");
  (if decide (check_happy_to_write = "yes")
   then csv_add_roll_calendar output_datapath instrument_code roll_calendar true
   else print "Not writing");;
  mret roll_calendar.

Definition check_saved_roll_calendar (instrument_code : string)
    (input_datapath : option string) : IO Calendar :=
  (if input_datapath is None
   then print "This will check the roll calendar in the default directory : are you are that's what you want to do?"
   else mret tt);;
  csv_roll_calendars ← call_lib (csvRollCalendarData lib input_datapath);
  roll_calendar ← call_lib (get_roll_calendar lib input_datapath instrument_code);
  artic_prices ← call_lib (arcticFuturesContractPriceData lib);
  dict_of_all_futures_contract_prices ←
    call_lib (get_all_prices_for_instrument lib instrument_code);
  dict_of_futures_contract_prices ←
    call_lib (final_prices lib dict_of_all_futures_contract_prices);
  print_calendar roll_calendar;;
  call_lib (check_if_date_index_monotonic lib roll_calendar);;
  call_lib (check_dates_are_valid_for_prices lib roll_calendar
              dict_of_futures_contract_prices);;
  mret roll_calendar.

(** The events a run added to the log. *)
Definition added (w w' : world Calendar) (new : list (event Calendar)) : Prop :=
  log w' = (new ++ log w)%list.

Definition is_write (ev : event Calendar) : bool :=
  match ev with AddRollCalendar _ _ _ _ => true | _ => false end.

Definition is_question (ev : event Calendar) : bool :=
  match ev with Asked _ => true | _ => false end.

End Script.

(** The same library with every verdict of its two checks passed through
    [g]; whether a check raises is unchanged. *)
Definition map_verdicts {AllPrices Prices Parameters Calendar Verdict Verdict'}
    (g : Verdict -> Verdict')
    (lib : Collaborators AllPrices Prices Parameters Calendar Verdict)
  : Collaborators AllPrices Prices Parameters Calendar Verdict' := {|
  arcticFuturesContractPriceData := arcticFuturesContractPriceData lib;
  mongoRollParametersData := mongoRollParametersData lib;
  csvRollCalendarData := csvRollCalendarData lib;
  get_all_prices_for_instrument := get_all_prices_for_instrument lib;
  final_prices := final_prices lib;
  get_roll_parameters := get_roll_parameters lib;
  create_from_prices := create_from_prices lib;
  check_if_date_index_monotonic := fun calendar =>
    g <$> check_if_date_index_monotonic lib calendar;
  check_dates_are_valid_for_prices := fun calendar prices =>
    g <$> check_dates_are_valid_for_prices lib calendar prices;
  add_roll_calendar := add_roll_calendar lib;
  get_roll_calendar := get_roll_calendar lib
|}.

(** A library with one instrument, CORN, whose calendar is its list of
    prices; both checks answer [True]. *)
Definition corn_library : Collaborators (list Z) (list Z) Z (list Z) bool := {|
  arcticFuturesContractPriceData := Ok tt;
  mongoRollParametersData := Ok tt;
  csvRollCalendarData := fun datapath => Ok tt;
  get_all_prices_for_instrument := fun code =>
    if decide (code = "CORN") then Ok [3; 1; 2] else Raise (KeyError code);
  final_prices := fun prices => Ok prices;
  get_roll_parameters := fun code => Ok 4;
  create_from_prices := fun prices parameters => Ok (parameters :: prices);
  check_if_date_index_monotonic := fun calendar => Ok true;
  check_dates_are_valid_for_prices := fun calendar prices => Ok true;
  add_roll_calendar := fun datapath code calendar ignore_duplication => Ok tt;
  get_roll_calendar := fun datapath code => Ok [4; 3; 1; 2]
|}.

(** The same library when both checks answer [False] instead. *)
Definition corn_library_failing_checks
  : Collaborators (list Z) (list Z) Z (list Z) bool :=
  map_verdicts (fun _ => false) corn_library.

End rollcalendars.

(** * Proofs *)

(** ** Monad laws used for inversion *)

Lemma bind_inv {A B} (m : M A) (k : A -> M B) st r st' :
  (m ≫= k) st = (r, st') ->
  (exists e, m st = (Raise e, st') /\ r = Raise e) \/
  (exists a st1, m st = (Ok a, st1) /\ k a st1 = (r, st')).
Proof.
  unfold mbind, M_bind, bind. destruct (m st) as [[a|e] st1]; intros Hk.
  - right. eauto.
  - left. exists e. by inversion Hk.
Qed.

Lemma bind_Ok_inv {A B} (m : M A) (k : A -> M B) st b st' :
  (m ≫= k) st = (Ok b, st') ->
  exists a st1, m st = (Ok a, st1) /\ k a st1 = (Ok b, st').
Proof.
  intros Hb. destruct (bind_inv _ _ _ _ _ Hb) as [(e & _ & He)|Hok]; [done|exact Hok].
Qed.

Lemma bind_Ok {A B} (m : M A) (k : A -> M B) st a st1 :
  m st = (Ok a, st1) -> (m ≫= k) st = k a st1.
Proof. unfold mbind, M_bind, bind. by intros ->. Qed.

Lemma bind_Raise {A B} (m : M A) (k : A -> M B) st e st1 :
  m st = (Raise e, st1) -> (m ≫= k) st = (Raise e, st1).
Proof. unfold mbind, M_bind, bind. by intros ->. Qed.

Lemma lift_inv {A} (x : result A) st r st' :
  lift x st = (r, st') -> r = x /\ st' = st.
Proof. unfold lift. by inversion 1. Qed.

Lemma mret_inv {A} (a : A) st r st' :
  (mret a : M A) st = (r, st') -> r = Ok a /\ st' = st.
Proof. unfold mret, M_ret, ret. by inversion 1. Qed.

(** ** The resolver *)

Section Resolver.
Context {Sys Stage : Type}.
Implicit Types (system : Sys) (stage : Stage).
Implicit Types (f g : Sys -> string -> Stage -> M value).

Lemma calc_or_cache_hit system stage a k f st v :
  cache st !! (a, k) = Some v ->
  calc_or_cache system a k f stage st = (Ok v, st).
Proof. unfold calc_or_cache. by intros ->. Qed.

Lemma calc_or_cache_miss system stage a k f st :
  cache st !! (a, k) = None ->
  calc_or_cache system a k f stage st = on_miss (a, k) (f system k stage) st.
Proof. unfold calc_or_cache, on_miss. by intros ->. Qed.

Lemma on_miss_Ok s (m : M value) st v st' :
  on_miss s m st = (Ok v, st') ->
  exists st1, m (Store (cache st) (s :: calls st)) = (Ok v, st1) /\
              st' = Store (<[s := v]> (cache st1)) (calls st1).
Proof.
  unfold on_miss. intros Hm.
  apply bind_Ok_inv in Hm as (u0 & st0 & He & Hm).
  unfold enter in He. simplify_eq.
  apply bind_Ok_inv in Hm as (w & st1 & Hf & Hm).
  apply bind_Ok_inv in Hm as (u2 & st2 & Hs & Hm).
  unfold set_item in Hs. simplify_eq.
  apply mret_inv in Hm as [Hv ->]. simplify_eq. eauto.
Qed.

Lemma on_miss_Raise s (m : M value) st e st' :
  on_miss s m st = (Raise e, st') ->
  m (Store (cache st) (s :: calls st)) = (Raise e, st').
Proof.
  unfold on_miss. intros Hm.
  apply bind_inv in Hm as [(e' & He & _)|(u0 & st0 & He & Hm)]; [by inversion He|].
  unfold enter in He. simplify_eq.
  apply bind_inv in Hm as [(e' & Hf & He)|(w & st1 & Hf & Hm)].
  { by simplify_eq. }
  apply bind_inv in Hm as [(e' & Hs & _)|(u2 & st2 & Hs & Hm)]; [by inversion Hs|].
  by apply mret_inv in Hm as [? _].
Qed.

(** A successful access leaves its result in its slot. *)
Lemma calc_or_cache_stores system stage a k f st v st' :
  calc_or_cache system a k f stage st = (Ok v, st') ->
  cache st' !! (a, k) = Some v.
Proof.
  destruct (cache st !! (a, k)) as [w|] eqn:Hc.
  - rewrite (calc_or_cache_hit _ _ _ _ _ _ _ Hc). by inversion 1; subst.
  - rewrite (calc_or_cache_miss _ _ _ _ _ _ Hc). intros Hm.
    apply on_miss_Ok in Hm as (st1 & _ & ->). simpl. apply lookup_insert_eq.
Qed.

(** A raising access was a miss, and ends where its compute function
    stopped. *)
Lemma calc_or_cache_Raise system stage a k f st e st' :
  calc_or_cache system a k f stage st = (Raise e, st') ->
  cache st !! (a, k) = None /\
  f system k stage (Store (cache st) ((a, k) :: calls st)) = (Raise e, st').
Proof.
  destruct (cache st !! (a, k)) as [w|] eqn:Hc.
  - by rewrite (calc_or_cache_hit _ _ _ _ _ _ _ Hc).
  - rewrite (calc_or_cache_miss _ _ _ _ _ _ Hc). intros Hm.
    split; [done|]. by apply on_miss_Raise.
Qed.

End Resolver.

(** ** Generic rules for [respects] and [preserves] *)

Section Rules.
Context {R : store -> store -> Prop} `{!Reflexive R, !Transitive R}.
Context {I : store -> Prop}.

Lemma respects_mret {A} (a : A) : respects R (mret a : M A).
Proof. intros st r st' Hm. apply mret_inv in Hm as [_ ->]. reflexivity. Qed.

Lemma respects_lift {A} (x : result A) : respects R (lift x).
Proof. intros st r st' Hm. apply lift_inv in Hm as [_ ->]. reflexivity. Qed.

Lemma respects_bind {A B} (m : M A) (k : A -> M B) :
  respects R m -> (forall a, respects R (k a)) -> respects R (m ≫= k).
Proof.
  intros Hm Hk st r st' Hb.
  apply bind_inv in Hb as [(e & Hr & _)|(a & st1 & Ha & Hb)].
  - by eapply Hm.
  - etrans; [by eapply Hm | by eapply Hk].
Qed.

Lemma preserves_mret {A} (a : A) : preserves I (mret a : M A).
Proof. intros st r st' HI Hm. by apply mret_inv in Hm as [_ ->]. Qed.

Lemma preserves_lift {A} (x : result A) : preserves I (lift x).
Proof. intros st r st' HI Hm. by apply lift_inv in Hm as [_ ->]. Qed.

Lemma preserves_bind {A B} (m : M A) (k : A -> M B) :
  preserves I m -> (forall a, preserves I (k a)) -> preserves I (m ≫= k).
Proof.
  intros Hm Hk st r st' HI Hb.
  apply bind_Ok_inv in Hb as (a & st1 & Ha & Hb).
  eapply Hk; [|exact Hb]. by eapply Hm.
Qed.

End Rules.

#[global] Instance grows_refl n : Reflexive (grows n).
Proof.
  intros st; split; [done| |done].
  exists []. split; [done|]. intros s Hs. by apply elem_of_nil in Hs.
Qed.

#[global] Instance grows_trans n : Transitive (grows n).
Proof.
  intros a b c [K1 (n1 & E1 & N1) F1] [K2 (n2 & E2 & N2) F2]. split.
  - eauto.
  - exists (n2 ++ n1)%list. split; [by rewrite E2, E1, app_assoc|].
    intros s Hs. apply elem_of_app in Hs as [Hs|Hs]; [|by apply N1].
    destruct (cache a !! s) as [v|] eqn:Hv; [|done].
    apply K1 in Hv. rewrite (N2 _ Hs) in Hv. done.
  - intros s Hs. by rewrite F2, F1.
Qed.

Lemma grows_mono n m st st' : (n <= m)%nat -> grows n st st' -> grows m st st'.
Proof.
  intros Hle [K C F]. split; [done..|].
  intros s Hs. apply F. lia.
Qed.

Lemma grows_calls n st st' s : grows n st st' -> s ∈ calls st -> s ∈ calls st'.
Proof.
  intros [_ (new & -> & _) _] Hs. apply elem_of_app. by right.
Qed.

Lemma respects_grows_mono {A} n m (c : M A) :
  (n <= m)%nat -> respects (grows n) c -> respects (grows m) c.
Proof. intros Hle Hc st r st' Hr. eapply grows_mono; [exact Hle|by eapply Hc]. Qed.

Lemma above_cons n a k pending :
  (n < level a)%nat -> above n pending -> above n ((a, k) :: pending).
Proof.
  intros Ha Hp s Hs. apply elem_of_cons in Hs as [->|Hs]; [done|by apply Hp].
Qed.

Lemma above_mono n m pending : (n <= m)%nat -> above m pending -> above n pending.
Proof. intros Hle Hp s Hs. specialize (Hp s Hs). lia. Qed.

Lemma above_nil n : above n [].
Proof. intros s Hs. by apply elem_of_nil in Hs. Qed.

Section ResolverRules.
Context {Sys Stage : Type}.
Implicit Types (system : Sys) (stage : Stage).
Implicit Types (f : Sys -> string -> Stage -> M value).

(** The resolver only adds: the compute function may fill shallower slots,
    then the resolver fills the slot asked for, which was empty. *)
Lemma calc_or_cache_grows system stage a k f n m :
  (m < level a)%nat -> (level a <= n)%nat ->
  respects (grows m) (f system k stage) ->
  respects (grows n) (calc_or_cache system a k f stage).
Proof.
  intros Hm Hn Hf st r st' Hc.
  destruct (cache st !! (a, k)) as [w|] eqn:Hmiss.
  { rewrite (calc_or_cache_hit _ _ _ _ _ _ _ Hmiss) in Hc. by simplify_eq. }
  rewrite (calc_or_cache_miss _ _ _ _ _ _ Hmiss) in Hc.
  assert (forall st1 (new : list slot),
            calls st1 = (new ++ (a, k) :: calls st)%list ->
            (forall s, s ∈ new -> cache st !! s = None) ->
            exists new' : list slot,
              calls st1 = (new' ++ calls st)%list /\
              forall s, s ∈ new' -> cache st !! s = None) as Hlog.
  { intros st1 new E N. exists (new ++ [(a, k)])%list.
    split; [by rewrite E, <- app_assoc|].
    intros s Hs. apply elem_of_app in Hs as [Hs|Hs]; [by apply N|].
    apply elem_of_cons in Hs as [->|Hs]; [done|by apply elem_of_nil in Hs]. }
  destruct r as [v|e].
  - apply on_miss_Ok in Hc as (st1 & Hc & ->).
    destruct (Hf _ _ _ Hc) as [K (new & E & N) F]. simpl in *. split; simpl.
    + intros s w Hs. rewrite lookup_insert_ne; [by apply K|].
      intros <-. rewrite Hmiss in Hs. done.
    + by eapply Hlog.
    + intros s Hs. rewrite lookup_insert_ne.
      * apply F. lia.
      * intros <-. simpl in Hs. lia.
  - apply on_miss_Raise in Hc.
    destruct (Hf _ _ _ Hc) as [K (new & E & N) F]. simpl in *. split.
    + done.
    + by eapply Hlog.
    + intros s Hs. apply F. lia.
Qed.

(** Entering a slot that is neither filled nor pending keeps the call log
    free of repetitions. *)
Lemma calc_or_cache_consistent system stage a k f m pending :
  (a, k) ∉ pending ->
  respects (grows m) (f system k stage) ->
  preserves (consistent ((a, k) :: pending)) (f system k stage) ->
  preserves (consistent pending) (calc_or_cache system a k f stage).
Proof.
  intros Hp Hg Hf st v st' [ND Fi En] Hc.
  destruct (cache st !! (a, k)) as [w|] eqn:Hmiss.
  { rewrite (calc_or_cache_hit _ _ _ _ _ _ _ Hmiss) in Hc. by simplify_eq. }
  rewrite (calc_or_cache_miss _ _ _ _ _ _ Hmiss) in Hc.
  apply on_miss_Ok in Hc as (st1 & Hc & ->).
  assert (consistent ((a, k) :: pending) (Store (cache st) ((a, k) :: calls st)))
    as H0.
  { split; simpl.
    - apply NoDup_cons. split; [|done].
      intros Hin. destruct (Fi _ Hin) as [[? Hw]|?]; [|done].
      rewrite Hmiss in Hw. done.
    - intros s Hs. apply elem_of_cons in Hs as [->|Hs].
      + right. by apply elem_of_cons; left.
      + destruct (Fi _ Hs); [by left|right; by apply elem_of_cons; right].
    - intros s Hs. apply elem_of_cons; right. by apply En. }
  destruct (Hf _ _ _ H0 Hc) as [ND1 Fi1 En1].
  pose proof (fun s => grows_calls _ _ _ s (Hg _ _ _ Hc)) as C. simpl in C.
  split; simpl.
  - done.
  - intros s Hs. destruct (decide (s = (a, k))) as [->|Hne].
    + left. rewrite lookup_insert_eq. eauto.
    + rewrite lookup_insert_ne by done.
      destruct (Fi1 _ Hs) as [?|Hin]; [by left|].
      apply elem_of_cons in Hin as [?|?]; [done|by right].
  - intros s Hs. destruct (decide (s = (a, k))) as [->|Hne].
    + apply C. by apply elem_of_cons; left.
    + rewrite lookup_insert_ne in Hs by done. by apply En1.
Qed.

End ResolverRules.

(** ** Tactics *)

(** Closes an equation between closed terms by evaluating both sides. *)
Ltac by_eval :=
  match goal with |- ?a = _ => vm_cast_no_check (@eq_refl _ a) end.

Ltac solve_level :=
  repeat match goal with
         | |- context [level ?a] =>
             let x := eval vm_compute in (level a) in change (level a) with x
         end;
  lia.

Ltac step_respects :=
  first
    [ apply respects_bind; [|intros ?]
    | apply respects_lift
    | apply respects_mret
    | match goal with
      | |- respects _ (let '(_, _) := ?p in _) => destruct p
      end ].

Ltac step_preserves :=
  first
    [ apply preserves_bind; [|intros ?]
    | apply preserves_lift
    | apply preserves_mret
    | match goal with
      | |- preserves _ (let '(_, _) := ?p in _) => destruct p
      end ].

(** ** The volatility target is a pure function of the resolved parameters *)

Lemma tier_eq (override : value) (configured : result value) (default : value) st :
  (if is_not_None override then mret override
   else try_except (lift configured) (mret default)) st
  = (Ok (three_tier override configured default), st).
Proof. destruct override; try done. by destruct configured. Qed.

Section StageFacts.
Context `{Imports}.
Implicit Types (system parent : System) (self : PositionSizing).

Lemma _get_vol_target_eq system key self st :
  _get_vol_target system key self st
  = (vol_target_dict (resolved_percentage_vol_target system self)
                     (resolved_notional_trading_capital system self)
                     (resolved_base_currency system self), st).
Proof.
  unfold _get_vol_target.
  rewrite (bind_Ok _ _ _ _ _ (tier_eq _ _ _ _)).
  rewrite (bind_Ok _ _ _ _ _ (tier_eq _ _ _ _)).
  rewrite (bind_Ok _ _ _ _ _ (tier_eq _ _ _ _)).
  fold (resolved_percentage_vol_target system self)
       (resolved_notional_trading_capital system self)
       (resolved_base_currency system self).
  unfold vol_target_dict, ROOT_BDAYS_INYEAR.
  unfold mbind, M_bind, bind, lift.
  destruct (py_mul _ _) as [p|e]; [|done].
  destruct (py_div p _) as [a|e]; [|done].
  by destruct (py_div a _) as [d|e].
Qed.

Lemma _get_vol_target_respects (R : store -> store -> Prop) `{!Reflexive R}
    system key self :
  respects R (_get_vol_target system key self).
Proof.
  intros st r st' Hv. rewrite _get_vol_target_eq in Hv. by simplify_eq.
Qed.

Lemma _get_vol_target_preserves (I : store -> Prop) system key self :
  preserves I (_get_vol_target system key self).
Proof.
  intros st r st' HI Hv. rewrite _get_vol_target_eq in Hv. by simplify_eq.
Qed.

(** ** Every accessor only adds to the store *)

Lemma get_combined_forecast_grows n parent self code :
  respects (grows n) (get_combined_forecast parent self code).
Proof. unfold get_combined_forecast. repeat step_respects. Qed.

Lemma get_price_volatility_grows n parent self code :
  respects (grows n) (get_price_volatility parent self code).
Proof. unfold get_price_volatility. repeat step_respects. Qed.

Lemma get_instrument_sizing_data_grows n parent self code :
  respects (grows n) (get_instrument_sizing_data parent self code).
Proof. unfold get_instrument_sizing_data. repeat step_respects. Qed.

Lemma get_daily_cash_vol_target_grows n parent self :
  (1 <= n)%nat -> respects (grows n) (get_daily_cash_vol_target parent self).
Proof.
  intros Hn. unfold get_daily_cash_vol_target.
  apply (calc_or_cache_grows _ _ _ _ _ n 0); [solve_level..|].
  apply _get_vol_target_respects, _.
Qed.

Lemma _get_fx_rate_grows system code self :
  respects (grows 1) (_get_fx_rate system code self).
Proof.
  unfold _get_fx_rate.
  step_respects; [apply get_daily_cash_vol_target_grows; lia|].
  repeat step_respects.
Qed.

Lemma get_fx_rate_grows n parent self code :
  (2 <= n)%nat -> respects (grows n) (get_fx_rate parent self code).
Proof.
  intros Hn. unfold get_fx_rate.
  apply (calc_or_cache_grows _ _ _ _ _ n 1); [solve_level..|].
  apply _get_fx_rate_grows.
Qed.

Lemma _get_block_value_grows system code self :
  respects (grows 2) (_get_block_value system code self).
Proof.
  unfold _get_block_value.
  step_respects; [apply get_instrument_sizing_data_grows|].
  repeat step_respects.
Qed.

Lemma get_block_value_grows n parent self code :
  (3 <= n)%nat -> respects (grows n) (get_block_value parent self code).
Proof.
  intros Hn. unfold get_block_value.
  apply (calc_or_cache_grows _ _ _ _ _ n 2); [solve_level..|].
  apply _get_block_value_grows.
Qed.

Lemma _get_instrument_currency_vol_grows system code self :
  respects (grows 3) (_get_instrument_currency_vol system code self).
Proof.
  unfold _get_instrument_currency_vol.
  step_respects; [apply get_block_value_grows; lia|].
  step_respects; [apply get_price_volatility_grows|].
  repeat step_respects.
Qed.

Lemma get_instrument_currency_vol_grows n parent self code :
  (4 <= n)%nat -> respects (grows n) (get_instrument_currency_vol parent self code).
Proof.
  intros Hn. unfold get_instrument_currency_vol.
  apply (calc_or_cache_grows _ _ _ _ _ n 3); [solve_level..|].
  apply _get_instrument_currency_vol_grows.
Qed.

Lemma _get_instrument_value_vol_grows system code self :
  respects (grows 4) (_get_instrument_value_vol system code self).
Proof.
  unfold _get_instrument_value_vol.
  step_respects; [apply get_instrument_currency_vol_grows; lia|].
  step_respects; [apply get_fx_rate_grows; lia|].
  repeat step_respects.
Qed.

Lemma get_instrument_value_vol_grows n parent self code :
  (5 <= n)%nat -> respects (grows n) (get_instrument_value_vol parent self code).
Proof.
  intros Hn. unfold get_instrument_value_vol.
  apply (calc_or_cache_grows _ _ _ _ _ n 4); [solve_level..|].
  apply _get_instrument_value_vol_grows.
Qed.

Lemma _get_volatility_scalar_grows system code self :
  respects (grows 5) (_get_volatility_scalar system code self).
Proof.
  unfold _get_volatility_scalar.
  step_respects; [apply get_instrument_value_vol_grows; lia|].
  step_respects; [apply get_daily_cash_vol_target_grows; lia|].
  repeat step_respects.
Qed.

Lemma get_volatility_scalar_grows n parent self code :
  (6 <= n)%nat -> respects (grows n) (get_volatility_scalar parent self code).
Proof.
  intros Hn. unfold get_volatility_scalar.
  apply (calc_or_cache_grows _ _ _ _ _ n 5); [solve_level..|].
  apply _get_volatility_scalar_grows.
Qed.

Lemma _get_subsys_position_grows system code self :
  respects (grows 6) (_get_subsys_position system code self).
Proof.
  unfold _get_subsys_position.
  step_respects; [apply get_volatility_scalar_grows; lia|].
  step_respects; [apply get_combined_forecast_grows|].
  repeat step_respects.
Qed.

Lemma get_subsys_position_grows n parent self code :
  (7 <= n)%nat -> respects (grows n) (get_subsys_position parent self code).
Proof.
  intros Hn. unfold get_subsys_position.
  apply (calc_or_cache_grows _ _ _ _ _ n 6); [solve_level..|].
  apply _get_subsys_position_grows.
Qed.

Lemma call_grows a parent self code :
  respects (grows 7) (call a parent self code).
Proof.
  destruct a; simpl.
  - apply get_combined_forecast_grows.
  - apply get_price_volatility_grows.
  - apply get_instrument_sizing_data_grows.
  - apply get_daily_cash_vol_target_grows; lia.
  - apply get_fx_rate_grows; lia.
  - apply get_block_value_grows; lia.
  - apply get_instrument_currency_vol_grows; lia.
  - apply get_instrument_value_vol_grows; lia.
  - apply get_volatility_scalar_grows; lia.
  - apply get_subsys_position_grows; lia.
Qed.

Lemma run_all_grows parent self prog :
  respects (grows 7) (run_all parent self prog).
Proof.
  induction prog as [|[a code] rest IH]; simpl.
  - apply respects_mret.
  - apply respects_bind; [apply call_grows|intros v].
    apply respects_bind; [exact IH|intros vs]. apply respects_mret.
Qed.

(** The local function behind each cached accessor leaves the accessor's
    own slot alone. *)
Lemma compute_fn_grows a f system key self :
  compute_fn a = Some f ->
  exists m, (forall code s, slot_of a code = Some s -> (m < level s.1)%nat) /\
            respects (grows m) (f system key self).
Proof.
  destruct a; simpl; intros Hf; simplify_eq.
  - exists 0%nat. split; [intros; simplify_eq; simpl; solve_level|].
    apply _get_vol_target_respects, _.
  - exists 1%nat. split; [intros; simplify_eq; simpl; solve_level|].
    apply _get_fx_rate_grows.
  - exists 2%nat. split; [intros; simplify_eq; simpl; solve_level|].
    apply _get_block_value_grows.
  - exists 3%nat. split; [intros; simplify_eq; simpl; solve_level|].
    apply _get_instrument_currency_vol_grows.
  - exists 4%nat. split; [intros; simplify_eq; simpl; solve_level|].
    apply _get_instrument_value_vol_grows.
  - exists 5%nat. split; [intros; simplify_eq; simpl; solve_level|].
    apply _get_volatility_scalar_grows.
  - exists 6%nat. split; [intros; simplify_eq; simpl; solve_level|].
    apply _get_subsys_position_grows.
Qed.

(** Each cached accessor is the resolver applied to its slot and its local
    function. *)
Lemma call_calc_or_cache a parent self code s f :
  slot_of a code = Some s -> compute_fn a = Some f ->
  call a parent self code = calc_or_cache parent s.1 s.2 f self.
Proof. destruct a; simpl; intros Hs Hf; by simplify_eq. Qed.

Lemma cached_has_compute_fn a code s :
  slot_of a code = Some s -> exists f, compute_fn a = Some f.
Proof. destruct a; simpl; intros Hs; simplify_eq; eauto. Qed.

End StageFacts.

(** ** No slot is entered twice *)

Section CallLog.
Context `{Imports}.
Implicit Types (system parent : System) (self : PositionSizing).

Ltac not_pending Hp :=
  let Hin := fresh in
  intros Hin; apply Hp in Hin; simpl in Hin; revert Hin; solve_level.

Ltac pending_above Hp :=
  apply above_cons; [solve_level|]; eapply above_mono; [|exact Hp]; lia.

Lemma get_combined_forecast_consistent pending parent self code :
  preserves (consistent pending) (get_combined_forecast parent self code).
Proof. unfold get_combined_forecast. repeat step_preserves. Qed.

Lemma get_price_volatility_consistent pending parent self code :
  preserves (consistent pending) (get_price_volatility parent self code).
Proof. unfold get_price_volatility. repeat step_preserves. Qed.

Lemma get_instrument_sizing_data_consistent pending parent self code :
  preserves (consistent pending) (get_instrument_sizing_data parent self code).
Proof. unfold get_instrument_sizing_data. repeat step_preserves. Qed.

Lemma get_daily_cash_vol_target_consistent pending parent self :
  above 1 pending ->
  preserves (consistent pending) (get_daily_cash_vol_target parent self).
Proof.
  intros Hp. unfold get_daily_cash_vol_target.
  apply (calc_or_cache_consistent _ _ _ _ _ 0); [not_pending Hp| |].
  - apply _get_vol_target_respects, _.
  - apply _get_vol_target_preserves.
Qed.

Lemma get_fx_rate_consistent pending parent self code :
  above 2 pending ->
  preserves (consistent pending) (get_fx_rate parent self code).
Proof.
  intros Hp. unfold get_fx_rate.
  apply (calc_or_cache_consistent _ _ _ _ _ 1); [not_pending Hp| |].
  - apply _get_fx_rate_grows.
  - unfold _get_fx_rate.
    step_preserves; [apply get_daily_cash_vol_target_consistent; pending_above Hp|].
    repeat step_preserves.
Qed.

Lemma get_block_value_consistent pending parent self code :
  above 3 pending ->
  preserves (consistent pending) (get_block_value parent self code).
Proof.
  intros Hp. unfold get_block_value.
  apply (calc_or_cache_consistent _ _ _ _ _ 2); [not_pending Hp| |].
  - apply _get_block_value_grows.
  - unfold _get_block_value.
    step_preserves; [apply get_instrument_sizing_data_consistent|].
    repeat step_preserves.
Qed.

Lemma get_instrument_currency_vol_consistent pending parent self code :
  above 4 pending ->
  preserves (consistent pending) (get_instrument_currency_vol parent self code).
Proof.
  intros Hp. unfold get_instrument_currency_vol.
  apply (calc_or_cache_consistent _ _ _ _ _ 3); [not_pending Hp| |].
  - apply _get_instrument_currency_vol_grows.
  - unfold _get_instrument_currency_vol.
    step_preserves; [apply get_block_value_consistent; pending_above Hp|].
    step_preserves; [apply get_price_volatility_consistent|].
    repeat step_preserves.
Qed.

Lemma get_instrument_value_vol_consistent pending parent self code :
  above 5 pending ->
  preserves (consistent pending) (get_instrument_value_vol parent self code).
Proof.
  intros Hp. unfold get_instrument_value_vol.
  apply (calc_or_cache_consistent _ _ _ _ _ 4); [not_pending Hp| |].
  - apply _get_instrument_value_vol_grows.
  - unfold _get_instrument_value_vol.
    step_preserves; [apply get_instrument_currency_vol_consistent; pending_above Hp|].
    step_preserves; [apply get_fx_rate_consistent; pending_above Hp|].
    repeat step_preserves.
Qed.

Lemma get_volatility_scalar_consistent pending parent self code :
  above 6 pending ->
  preserves (consistent pending) (get_volatility_scalar parent self code).
Proof.
  intros Hp. unfold get_volatility_scalar.
  apply (calc_or_cache_consistent _ _ _ _ _ 5); [not_pending Hp| |].
  - apply _get_volatility_scalar_grows.
  - unfold _get_volatility_scalar.
    step_preserves; [apply get_instrument_value_vol_consistent; pending_above Hp|].
    step_preserves; [apply get_daily_cash_vol_target_consistent; pending_above Hp|].
    repeat step_preserves.
Qed.

Lemma get_subsys_position_consistent pending parent self code :
  above 7 pending ->
  preserves (consistent pending) (get_subsys_position parent self code).
Proof.
  intros Hp. unfold get_subsys_position.
  apply (calc_or_cache_consistent _ _ _ _ _ 6); [not_pending Hp| |].
  - apply _get_subsys_position_grows.
  - unfold _get_subsys_position.
    step_preserves; [apply get_volatility_scalar_consistent; pending_above Hp|].
    step_preserves; [apply get_combined_forecast_consistent|].
    repeat step_preserves.
Qed.

Lemma call_consistent a parent self code :
  preserves (consistent []) (call a parent self code).
Proof.
  destruct a; simpl.
  - apply get_combined_forecast_consistent.
  - apply get_price_volatility_consistent.
  - apply get_instrument_sizing_data_consistent.
  - apply get_daily_cash_vol_target_consistent, above_nil.
  - apply get_fx_rate_consistent, above_nil.
  - apply get_block_value_consistent, above_nil.
  - apply get_instrument_currency_vol_consistent, above_nil.
  - apply get_instrument_value_vol_consistent, above_nil.
  - apply get_volatility_scalar_consistent, above_nil.
  - apply get_subsys_position_consistent, above_nil.
Qed.

Lemma run_all_consistent parent self prog :
  preserves (consistent []) (run_all parent self prog).
Proof.
  induction prog as [|[a code] rest IH]; simpl.
  - apply preserves_mret.
  - apply preserves_bind; [apply call_consistent|intros v].
    apply preserves_bind; [exact IH|intros vs]. apply preserves_mret.
Qed.

Lemma empty_store_consistent : consistent [] empty_store.
Proof.
  split; simpl.
  - apply NoDup_nil_2.
  - intros s Hs. by apply elem_of_nil in Hs.
  - intros s [v Hv]. by rewrite lookup_empty in Hv.
Qed.

End CallLog.


(** ** Invalidation *)

Lemma invalidate_stage_cleared volatile st attr key :
  attr ∈ volatile -> cache (invalidate_stage volatile st) !! (attr, key) = None.
Proof.
  intros Hin. simpl. apply map_lookup_filter_None_2. right.
  intros v _ Hkeep. by apply Hkeep.
Qed.

Lemma invalidate_stage_kept volatile st attr key :
  attr ∉ volatile ->
  cache (invalidate_stage volatile st) !! (attr, key) = cache st !! (attr, key).
Proof.
  intros Hnot. simpl. rewrite map_lookup_filter.
  destruct (cache st !! (attr, key)) as [v|]; simpl; [|done].
  by rewrite option_guard_True.
Qed.

Lemma invalidate_stage_consistent volatile st :
  consistent [] st -> consistent [] (invalidate_stage volatile st).
Proof.
  intros [ND Fi En]. split; simpl.
  - by apply NoDup_filter.
  - intros [attr key] Hs. apply list_elem_of_filter in Hs as [Hkeep Hs].
    left. destruct (Fi _ Hs) as [Hc|Hp]; [|by apply elem_of_nil in Hp].
    simpl in Hkeep.
    pose proof (invalidate_stage_kept volatile st attr key Hkeep) as Hk.
    simpl in Hk. by rewrite Hk.
  - intros [attr key] [v Hv].
    apply map_lookup_filter_Some in Hv as [Hv Hkeep].
    apply list_elem_of_filter. split; [done|]. apply En. eauto.
Qed.

(** * Claims about the stage *)

Section Memoization.
Context `{Imports}.
Implicit Types (system parent : System) (self : PositionSizing).

(** A successful access leaves its value in its slot. *)
Lemma call_stores a parent self code s st v st' :
  slot_of a code = Some s ->
  call a parent self code st = (Ok v, st') ->
  cache st' !! s = Some v.
Proof.
  intros Hs Hc. destruct (cached_has_compute_fn _ _ _ Hs) as [f Hf].
  rewrite (call_calc_or_cache _ _ _ _ _ _ Hs Hf) in Hc.
  apply calc_or_cache_stores in Hc. by destruct s.
Qed.

(** A filled slot answers the access, and nothing changes. *)
Lemma call_hit a parent self code s st v :
  slot_of a code = Some s ->
  cache st !! s = Some v ->
  call a parent self code st = (Ok v, st).
Proof.
  intros Hs Hc. destruct (cached_has_compute_fn _ _ _ Hs) as [f Hf].
  rewrite (call_calc_or_cache _ _ _ _ _ _ Hs Hf).
  apply calc_or_cache_hit. by destruct s.
Qed.

(** An empty slot sends the access down the miss path. *)
Lemma call_miss a parent self code s f st :
  slot_of a code = Some s -> compute_fn a = Some f ->
  cache st !! s = None ->
  call a parent self code st = on_miss s (f parent s.2 self) st.
Proof.
  intros Hs Hf Hc. rewrite (call_calc_or_cache _ _ _ _ _ _ Hs Hf).
  destruct s as [attr key]. by apply calc_or_cache_miss.
Qed.

End Memoization.

(** C1. Memoization.  (i) For the resolver: after a successful access of a
    slot, an access of the same slot with any compute function returns the
    same value and leaves the store, call log included, as it was.
    (ii) For the stage: once a cached accessor has returned a value for a
    key, the same call after any further series of accessor calls returns
    that value without entering any compute function.  (iii) A slot that
    holds a value is never entered again: whatever series of accessor calls
    follows, and whether or not some of them raise, the entries added to
    the call log do not contain it.  (iv) Starting from a store whose call
    log matches its cache, a series of successful accessor calls never
    enters a slot twice.  (v) The diamond: on a fresh system,
    [get_instrument_value_vol] followed by [get_volatility_scalar] for the
    same instrument enters each of the instrument currency vol, FX rate,
    instrument value vol and volatility target slots exactly once.
    (vi) An invalidation keeps the call log matched with the cache, so the
    guarantee of (iv) starts afresh after it. *)
Theorem compute_at_most_once `{Imports} :
  (forall (Sys Stage : Type) (system : Sys) (stage : Stage) a k
          (f g : Sys -> string -> Stage -> M value) st v st',
     calc_or_cache system a k f stage st = (Ok v, st') ->
     calc_or_cache system a k g stage st' = (Ok v, st')) /\
  (forall parent self a code s prog st v st1 r st2,
     slot_of a code = Some s ->
     call a parent self code st = (Ok v, st1) ->
     run_all parent self prog st1 = (r, st2) ->
     call a parent self code st2 = (Ok v, st2)) /\
  (forall parent self prog st r st' s,
     is_Some (cache st !! s) ->
     run_all parent self prog st = (r, st') ->
     exists new : list slot, calls st' = (new ++ calls st)%list /\ s ∉ new) /\
  (forall parent self prog st vs st',
     consistent [] st ->
     run_all parent self prog st = (Ok vs, st') ->
     NoDup (calls st')) /\
  (forall parent self code v1 st1 v2 st2,
     get_instrument_value_vol parent self code empty_store = (Ok v1, st1) ->
     get_volatility_scalar parent self code st1 = (Ok v2, st2) ->
     NoDup (calls st2) /\
     forall s, s ∈ [("_instrument_currency_vol", code); ("_fx_rate", code);
                    ("_instrument_value_vol", code); ("_vol_target", ALL_KEYNAME)] ->
               s ∈ calls st2) /\
  (forall volatile st,
     consistent [] st -> consistent [] (invalidate_stage volatile st)).
Proof.
  split; [|split; [|split; [|split; [|split]]]];
    [| | | | |apply invalidate_stage_consistent].
  - intros Sys Stage system stage a k f g st v st' Hc.
    apply calc_or_cache_hit. by eapply calc_or_cache_stores.
  - intros parent self a code s prog st v st1 r st2 Hs Hc Hr.
    eapply call_hit; [exact Hs|].
    apply (grows_keeps _ _ _ (run_all_grows _ _ _ _ _ _ Hr)).
    by eapply call_stores.
  - intros parent self prog st r st' s [v Hv] Hr.
    destruct (grows_entered _ _ _ (run_all_grows _ _ _ _ _ _ Hr))
      as (new & E & N).
    exists new. split; [done|]. intros Hin. rewrite (N _ Hin) in Hv. done.
  - intros parent self prog st vs st' Hst Hr.
    by destruct (run_all_consistent _ _ _ _ _ _ Hst Hr).
  - intros parent self code v1 st1 v2 st2 H1 H2.
    pose proof (get_instrument_value_vol_consistent [] _ _ _ (above_nil _)
                  _ _ _ empty_store_consistent H1) as C1.
    pose proof (get_volatility_scalar_consistent [] _ _ _ (above_nil _)
                  _ _ _ C1 H2) as C2.
    split; [by destruct C2|].
    assert (forall s, is_Some (cache st1 !! s) -> s ∈ calls st2) as Hold.
    { intros s [w Hw]. apply (cons_entered _ _ C2).
      exists w. by apply (grows_keeps _ _ _
                 (get_volatility_scalar_grows 6 _ _ _ (le_n _) _ _ _ H2)). }
    (* what the first access filled *)
    unfold get_instrument_value_vol in H1.
    rewrite calc_or_cache_miss in H1 by apply lookup_empty.
    pose proof H1 as H1'.
    apply on_miss_Ok in H1 as (sta & Hf & ->).
    unfold _get_instrument_value_vol in Hf.
    apply bind_Ok_inv in Hf as (icv & stb & Hicv & Hf).
    apply bind_Ok_inv in Hf as (fx & stc & Hfx & Hf).
    apply bind_Ok_inv in Hf as (x & std & Hx & Hf).
    apply lift_inv in Hx as [_ ->]. apply lift_inv in Hf as [_ ->].
    pose proof (calc_or_cache_stores _ _ _ _ _ _ _ _ Hicv) as Sicv.
    pose proof (calc_or_cache_stores _ _ _ _ _ _ _ _ Hfx) as Sfx.
    apply (grows_keeps _ _ _ (get_fx_rate_grows 2 _ _ _ (le_n _) _ _ _ Hfx))
      in Sicv.
    (* what the second access filled *)
    assert (is_Some (cache st2 !! ("_vol_target", ALL_KEYNAME))) as Svt.
    { unfold get_volatility_scalar in H2.
      rewrite calc_or_cache_miss in H2.
      - apply on_miss_Ok in H2 as (ste & Hg & ->).
        unfold _get_volatility_scalar in Hg.
        apply bind_Ok_inv in Hg as (ivv & stf & Hivv & Hg).
        apply bind_Ok_inv in Hg as (d & stg & Hd & Hg).
        apply bind_Ok_inv in Hg as (c & sth & Hc & Hg).
        apply lift_inv in Hc as [_ ->].
        apply bind_Ok_inv in Hg as (q & sti & Hq & Hg).
        apply lift_inv in Hq as [_ ->]. apply lift_inv in Hg as [_ ->].
        simpl. rewrite lookup_insert_ne by (intros [=]).
        exists d. by eapply calc_or_cache_stores.
      - simpl. rewrite lookup_insert_ne by (intros [=]).
        rewrite (grows_frame _ _ _ (get_fx_rate_grows 5 _ _ _ ltac:(lia) _ _ _ Hfx))
          by (simpl; solve_level).
        rewrite (grows_frame _ _ _
                   (get_instrument_currency_vol_grows 5 _ _ _ ltac:(lia) _ _ _ Hicv))
          by (simpl; solve_level).
        apply lookup_empty. }
    intros s Hs. repeat (apply elem_of_cons in Hs as [->|Hs]).
    + apply Hold. simpl. rewrite lookup_insert_ne by (intros [=]). eauto.
    + apply Hold. simpl. rewrite lookup_insert_ne by (intros [=]). eauto.
    + apply Hold. simpl. rewrite lookup_insert_eq. eauto.
    + by apply (cons_entered _ _ C2).
    + by apply elem_of_nil in Hs.
Qed.

Lemma compute_at_most_once_witness :
  let m1 := @get_instrument_value_vol Example.imports Example.system
              Example.stage "EDOLLAR" empty_store in
  let m2 := @get_volatility_scalar Example.imports Example.system
              Example.stage "EDOLLAR" m1.2 in
  let m3 := @run_all Example.imports Example.system Example.stage
              [(SubsysPosition, "EDOLLAR"); (FxRate, "NOFX")] m2.2 in
  m1.1 = Ok (returned m1 VNone) /\ m2.1 = Ok (returned m2 VNone) /\
  m3.1 = Raise (OtherError "no fx data") /\
  NoDup (calls m2.2) /\
  ("_vol_target", "all") ∈ calls m2.2 /\
  @get_volatility_scalar Example.imports Example.system Example.stage
    "EDOLLAR" m3.2 = (Ok (returned m2 VNone), m3.2) /\
  @calc_or_cache System PositionSizing Example.system "_vol_scalar"
    "EDOLLAR" (fun _ _ _ => lift (Raise TypeError)) Example.stage m2.2
  = (Ok (returned m2 VNone), m2.2) /\
  (exists new : list slot,
     calls m3.2 = (new ++ calls m2.2)%list /\ ("_vol_scalar", "EDOLLAR") ∉ new) /\
  NoDup (calls (@run_all Example.imports Example.system Example.stage
                  [(SubsysPosition, "EDOLLAR"); (BlockValue, "GAS")] m2.2).2) /\
  consistent [] (invalidate_stage (_delete_on_recalc Example.stage) m2.2).
Proof.
  intros m1 m2 m3.
  destruct (@compute_at_most_once Example.imports)
    as (W1 & W2 & W3 & W4 & W5 & W6).
  assert (NoDup (calls m2.2) /\
          forall s, s ∈ [("_instrument_currency_vol", "EDOLLAR");
                         ("_fx_rate", "EDOLLAR");
                         ("_instrument_value_vol", "EDOLLAR");
                         ("_vol_target", "all")] -> s ∈ calls m2.2) as [ND In4].
  { refine (W5 Example.system Example.stage "EDOLLAR" (returned m1 VNone) m1.2
              (returned m2 VNone) m2.2 _ _); by_eval. }
  assert (consistent [] m2.2) as Cons.
  { refine (get_volatility_scalar_consistent (H:=Example.imports) []
              Example.system Example.stage "EDOLLAR" (above_nil _)
              m1.2 (returned m2 VNone) m2.2 _ _); [|by_eval].
    refine (get_instrument_value_vol_consistent (H:=Example.imports) []
              Example.system Example.stage "EDOLLAR" (above_nil _)
              empty_store (returned m1 VNone) m1.2 empty_store_consistent _).
    by_eval. }
  split; [by_eval|]. split; [by_eval|]. split; [by_eval|].
  split; [exact ND|]. split.
  { apply In4. do 3 apply list_elem_of_further. apply list_elem_of_here. }
  split.
  { refine (W2 Example.system Example.stage VolatilityScalar "EDOLLAR"
              ("_vol_scalar", "EDOLLAR")
              [(SubsysPosition, "EDOLLAR"); (FxRate, "NOFX")] m1.2
              (returned m2 VNone) m2.2 m3.1 m3.2 _ _ _); by_eval. }
  split.
  { refine (W1 System PositionSizing Example.system Example.stage
              "_vol_scalar" "EDOLLAR" (@_get_volatility_scalar Example.imports)
              (fun _ _ _ => lift (Raise TypeError)) m1.2
              (returned m2 VNone) m2.2 _). by_eval. }
  split.
  { refine (W3 Example.system Example.stage
              [(SubsysPosition, "EDOLLAR"); (FxRate, "NOFX")] m2.2 m3.1 m3.2
              ("_vol_scalar", "EDOLLAR") _ _); [|by_eval].
    exists (returned m2 VNone). by_eval. }
  split.
  { pose (m4 := @run_all Example.imports Example.system Example.stage
                  [(SubsysPosition, "EDOLLAR"); (BlockValue, "GAS")] m2.2).
    refine (W4 Example.system Example.stage
              [(SubsysPosition, "EDOLLAR"); (BlockValue, "GAS")] m2.2
              (returned m4 []) m4.2 Cons _). by_eval. }
  by apply W6.
Defined.

(** C2. Failure leaves no stale cache.  (i) For the resolver: when the
    slot is empty and the compute function raises, the access raises that
    same exception and ends in exactly the store the compute function
    left: the resolver has stored nothing, neither a partial nor an error
    value.  (ii) For the stage: when the slot of a cached accessor is empty
    and its compute function raises, the access raises that same exception
    and the slot is still empty afterwards; a later access, on whatever
    system is then in place, takes the miss path again, and if its compute
    function then returns a value, that fresh value is returned and stored
    in the slot.  (iii) For [get_fx_rate]: when the data source raises for
    the instrument, the access raises that exception and [_fx_rate] holds
    nothing for the instrument.  (iv), (v) Conversely, an access raises
    only in this way: it was a miss and the exception is the compute
    function's. *)
Theorem failure_leaves_slot_empty `{Imports} :
  (forall (Sys Stage : Type) (system : Sys) (stage : Stage) a k
          (f : Sys -> string -> Stage -> M value) st e st1,
     cache st !! (a, k) = None ->
     f system k stage (Store (cache st) ((a, k) :: calls st)) = (Raise e, st1) ->
     calc_or_cache system a k f stage st = (Raise e, st1)) /\
  (forall parent self a code s f e st st1,
     slot_of a code = Some s -> compute_fn a = Some f ->
     cache st !! s = None ->
     f parent s.2 self (Store (cache st) (s :: calls st)) = (Raise e, st1) ->
     call a parent self code st = (Raise e, st1) /\
     cache st1 !! s = None /\
     forall parent' self',
       call a parent' self' code st1 = on_miss s (f parent' s.2 self') st1 /\
       forall v st2,
         f parent' s.2 self' (Store (cache st1) (s :: calls st1)) = (Ok v, st2) ->
         call a parent' self' code st1
         = (Ok v, Store (<[s := v]> (cache st2)) (calls st2)) /\
         cache (Store (<[s := v]> (cache st2)) (calls st2)) !! s = Some v) /\
  (forall parent self code st d st1 currency e,
     cache st !! ("_fx_rate", code) = None ->
     get_daily_cash_vol_target parent self
       (Store (cache st) (("_fx_rate", code) :: calls st)) = (Ok d, st1) ->
     py_getitem d "base_currency" = Ok currency ->
     data_get_fx_for_currency parent code currency = Raise e ->
     get_fx_rate parent self code st = (Raise e, st1) /\
     cache st1 !! ("_fx_rate", code) = None) /\
  (forall (Sys Stage : Type) (system : Sys) (stage : Stage) a k
          (f : Sys -> string -> Stage -> M value) st e st',
     calc_or_cache system a k f stage st = (Raise e, st') ->
     cache st !! (a, k) = None /\
     f system k stage (Store (cache st) ((a, k) :: calls st)) = (Raise e, st')) /\
  (forall parent self a code s f e st st',
     slot_of a code = Some s -> compute_fn a = Some f ->
     call a parent self code st = (Raise e, st') ->
     cache st' !! s = None /\
     forall parent' self',
       call a parent' self' code st' = on_miss s (f parent' s.2 self') st' /\
       forall v st'',
         call a parent' self' code st' = (Ok v, st'') ->
         cache st'' !! s = Some v /\
         exists st1,
           f parent' s.2 self' (Store (cache st') (s :: calls st')) = (Ok v, st1) /\
           st'' = Store (<[s := v]> (cache st1)) (calls st1)).
Proof.
  assert (forall s (m : M value) st e st1,
            m (Store (cache st) (s :: calls st)) = (Raise e, st1) ->
            on_miss s m st = (Raise e, st1)) as Hraise.
  { intros s m st e st1 Hm. unfold on_miss, enter.
    unfold mbind, M_bind, bind. by rewrite Hm. }
  split; [|split; [|split; [|split]]].
  - intros Sys Stage system stage a k f st e st1 Hmiss Hf.
    rewrite calc_or_cache_miss by done. by apply Hraise.
  - intros parent self a code s f e st st1 Hs Hf Hmiss Hc.
    assert (cache st1 !! s = None) as Hempty.
    { destruct (compute_fn_grows a f parent s.2 self Hf) as (m & Hm & Hg).
      rewrite (grows_frame _ _ _ (Hg _ _ _ Hc)) by (by eapply Hm). done. }
    split; [|split; [done|]].
    { rewrite (call_miss a parent self code s f st Hs Hf Hmiss).
      by apply Hraise. }
    intros parent' self'.
    pose proof (call_miss a parent' self' code s f st1 Hs Hf Hempty) as Hagain.
    split; [exact Hagain|]. intros v st2 Hok.
    split; [|simpl; apply lookup_insert_eq].
    rewrite Hagain. unfold on_miss, enter, set_item.
    unfold mbind, M_bind, bind, mret, M_ret, ret. by rewrite Hok.
  - intros parent self code st d st1 currency e Hmiss Hd Hcur Hfx.
    split.
    + unfold get_fx_rate. rewrite calc_or_cache_miss by done.
      apply Hraise. unfold _get_fx_rate.
      rewrite (bind_Ok _ _ _ _ _ Hd).
      unfold mbind, M_bind, bind, lift. by rewrite Hcur, Hfx.
    + rewrite (grows_frame _ _ _
                 (get_daily_cash_vol_target_grows 1 _ _ (le_n _) _ _ _ Hd))
        by (simpl; solve_level).
      done.
  - intros Sys Stage system stage a k f st e st'. apply calc_or_cache_Raise.
  - intros parent self a code s f e st st' Hs Hf Hc.
    assert (cache st' !! s = None) as Hempty.
    { rewrite (call_calc_or_cache _ _ _ _ _ _ Hs Hf) in Hc.
      apply calc_or_cache_Raise in Hc as [Hmiss Hc].
      destruct (compute_fn_grows a f parent s.2 self Hf) as (m & Hm & Hg).
      rewrite (grows_frame _ _ _ (Hg _ _ _ Hc)) by (by eapply Hm).
      simpl. by destruct s. }
    split; [exact Hempty|]. intros parent' self'.
    pose proof (call_miss a parent' self' code s f st' Hs Hf Hempty) as Hmiss.
    split; [exact Hmiss|]. intros v st'' Hok.
    split; [by eapply call_stores|].
    rewrite Hmiss in Hok. by apply on_miss_Ok.
Qed.

Lemma failure_leaves_slot_empty_witness :
  let entered := Store ∅ [("_fx_rate", "NOFX")] in
  let failed := @_get_fx_rate Example.imports Example.system "NOFX"
                  Example.stage entered in
  let target := @get_daily_cash_vol_target Example.imports Example.system
                  Example.stage entered in
  let again := @_get_fx_rate Example.imports Example.system_with_fx "NOFX"
                 Example.stage
                 (Store (cache failed.2) (("_fx_rate", "NOFX") :: calls failed.2)) in
  let fx := VFrame (Frame "fx" [(1, 1%float); (2, nan)]) in
  failed.1 = Raise (OtherError "no fx data") /\
  @get_fx_rate Example.imports Example.system Example.stage "NOFX" empty_store
  = (Raise (OtherError "no fx data"), failed.2) /\
  @calc_or_cache System PositionSizing Example.system "_fx_rate" "NOFX"
    (@_get_fx_rate Example.imports) Example.stage empty_store
  = (Raise (OtherError "no fx data"), failed.2) /\
  cache failed.2 !! ("_fx_rate", "NOFX") = None /\
  target.2 = failed.2 /\
  @get_fx_rate Example.imports Example.system_with_fx Example.stage "NOFX"
    failed.2
  = (Ok fx, Store (<[("_fx_rate", "NOFX") := fx]> (cache again.2)) (calls again.2)) /\
  @_get_fx_rate Example.imports Example.system "NOFX" Example.stage entered
  = (Raise (OtherError "no fx data"), failed.2).
Proof.
  intros entered failed target again fx.
  destruct (@failure_leaves_slot_empty Example.imports)
    as (W1 & W2 & W3 & W4 & W5).
  destruct (W2 Example.system Example.stage FxRate "NOFX" ("_fx_rate", "NOFX")
              _get_fx_rate (OtherError "no fx data") empty_store failed.2
              eq_refl eq_refl eq_refl) as (Hcall & Hempty & Hretry); [by_eval|].
  split; [by_eval|]. split; [exact Hcall|]. split.
  { refine (W1 System PositionSizing Example.system Example.stage "_fx_rate"
              "NOFX" (@_get_fx_rate Example.imports) empty_store
              (OtherError "no fx data") failed.2 eq_refl _). by_eval. }
  split; [exact Hempty|]. split.
  { destruct (W3 Example.system Example.stage "NOFX" empty_store
                (returned target VNone) target.2 (VStr "GBP")
                (OtherError "no fx data") eq_refl) as [Hfx _];
      [by_eval|by_eval|reflexivity|].
    exact (f_equal snd (eq_trans (eq_sym Hfx) Hcall)). }
  split.
  { destruct (Hretry Example.system_with_fx Example.stage) as [_ Hok].
    refine (proj1 (Hok fx again.2 _)). by_eval. }
  refine (proj2 (W4 System PositionSizing Example.system Example.stage
                   "_fx_rate" "NOFX" (@_get_fx_rate Example.imports)
                   empty_store (OtherError "no fx data") failed.2 _)).
  exact Hcall.
Defined.

(** C3. Invalidating the position-sizing stage.  With the two lists set by
    the constructor: (i) they are the six volatile attributes and the one
    persistent attribute; (ii) after invalidation no entry is left under a
    volatile attribute, whatever the key; (iii) entries under a persistent
    attribute are as before; (iv) a volatility target that had been
    returned is returned again after invalidation, from the cache, with no
    compute function entered and whatever the configuration has become;
    (v) every other cached accessor takes the miss path after
    invalidation. *)
Theorem invalidate_stage_partition `{Imports} :
  forall passed_pct passed_capital passed_currency,
    let self := __init__ passed_pct passed_capital passed_currency in
    let invalidate := invalidate_stage (_delete_on_recalc self) in
    (_delete_on_recalc self =
       ["_block_value"; "_instrument_currency_vol"; "_instrument_value_vol";
        "_vol_scalar"; "_subsys_position"; "_fx_rate"] /\
     _dont_recalc self = ["_vol_target"]) /\
    (forall st attr key,
       attr ∈ _delete_on_recalc self -> cache (invalidate st) !! (attr, key) = None) /\
    (forall st attr key,
       attr ∈ _dont_recalc self ->
       cache (invalidate st) !! (attr, key) = cache st !! (attr, key)) /\
    (forall parent prog st v st1 r st2 parent',
       get_daily_cash_vol_target parent self st = (Ok v, st1) ->
       run_all parent self prog st1 = (r, st2) ->
       get_daily_cash_vol_target parent' self (invalidate st2)
       = (Ok v, invalidate st2)) /\
    (forall parent a code s f st,
       slot_of a code = Some s -> compute_fn a = Some f ->
       a <> DailyCashVolTarget ->
       s.1 ∈ _delete_on_recalc self /\
       call a parent self code (invalidate st)
       = on_miss s (f parent s.2 self) (invalidate st)).
Proof.
  intros passed_pct passed_capital passed_currency self invalidate.
  assert (forall st key,
            cache (invalidate st) !! ("_vol_target", key)
            = cache st !! ("_vol_target", key)) as Hkept.
  { intros st key. apply invalidate_stage_kept. simpl.
    rewrite !elem_of_cons, elem_of_nil. intros Hin.
    repeat destruct Hin as [Hin|Hin]; done. }
  split; [done|]. split; [|split; [|split]].
  - intros st attr key Hin. by apply invalidate_stage_cleared.
  - intros st attr key Hin. simpl in Hin.
    apply elem_of_cons in Hin as [->|Hin]; [apply Hkept|by apply elem_of_nil in Hin].
  - intros parent prog st v st1 r st2 parent' Hc Hr.
    apply calc_or_cache_hit. rewrite Hkept.
    apply (grows_keeps _ _ _ (run_all_grows _ _ _ _ _ _ Hr)).
    by eapply calc_or_cache_stores.
  - intros parent a code s f st Hs Hf Ha.
    assert (s.1 ∈ _delete_on_recalc self) as Hvol.
    { destruct a; simpl in Hs; simplify_eq; simpl;
        rewrite !elem_of_cons; auto 10. }
    split; [exact Hvol|].
    apply call_miss; [done..|]. destruct s as [attr key].
    by apply invalidate_stage_cleared.
Qed.

Lemma invalidate_stage_partition_witness :
  let invalidate := invalidate_stage (_delete_on_recalc Example.stage) in
  let m0 := @get_daily_cash_vol_target Example.imports Example.system
              Example.stage empty_store in
  let m1 := @run_all Example.imports Example.system Example.stage
              [(SubsysPosition, "EDOLLAR")] m0.2 in
  let cold := invalidate m1.2 in
  cache cold !! ("_subsys_position", "EDOLLAR") = None /\
  cache cold !! ("_vol_target", "all") = cache m1.2 !! ("_vol_target", "all") /\
  @get_daily_cash_vol_target Example.imports Example.system_with_fx
     Example.stage cold = (Ok (returned m0 VNone), cold) /\
  @get_subsys_position Example.imports Example.system Example.stage "EDOLLAR" cold
  = on_miss ("_subsys_position", "EDOLLAR")
      (@_get_subsys_position Example.imports Example.system "EDOLLAR" Example.stage)
      cold.
Proof.
  intros invalidate m0 m1 cold.
  destruct (@invalidate_stage_partition Example.imports VNone VNone VNone)
    as (_ & W2 & W3 & W4 & W5).
  split; [|split; [|split]].
  - apply W2. do 4 apply list_elem_of_further. apply list_elem_of_here.
  - apply W3. apply list_elem_of_here.
  - refine (W4 Example.system [(SubsysPosition, "EDOLLAR")] empty_store
               (returned m0 VNone) m0.2 m1.1 m1.2 Example.system_with_fx _ _);
      by_eval.
  - refine (proj2 (W5 Example.system SubsysPosition "EDOLLAR"
                     ("_subsys_position", "EDOLLAR") _get_subsys_position
                     m1.2 eq_refl eq_refl _)).
    discriminate.
Defined.

Section VolTarget.
Context `{Imports}.
Implicit Types (system parent : System) (self : PositionSizing).

Lemma on_miss_Ok_intro s (m : M value) st v st1 :
  m (Store (cache st) (s :: calls st)) = (Ok v, st1) ->
  on_miss s m st = (Ok v, Store (<[s := v]> (cache st1)) (calls st1)).
Proof.
  intros Hm. unfold on_miss, enter, set_item.
  unfold mbind, M_bind, bind, mret, M_ret, ret. by rewrite Hm.
Qed.

(** A first access of the volatility target: its value is the dictionary
    of the resolved parameters, and only its own slot is filled. *)
Lemma get_daily_cash_vol_target_miss parent self st v :
  cache st !! ("_vol_target", ALL_KEYNAME) = None ->
  vol_target_dict (resolved_percentage_vol_target parent self)
                  (resolved_notional_trading_capital parent self)
                  (resolved_base_currency parent self) = Ok v ->
  get_daily_cash_vol_target parent self st
  = (Ok v, Store (<[("_vol_target", ALL_KEYNAME) := v]> (cache st))
                 (("_vol_target", ALL_KEYNAME) :: calls st)).
Proof.
  intros Hmiss Hv. unfold get_daily_cash_vol_target.
  rewrite calc_or_cache_miss by done.
  rewrite (on_miss_Ok_intro _ _ _ v (Store (cache st) (("_vol_target", ALL_KEYNAME) :: calls st))).
  - done.
  - by rewrite _get_vol_target_eq, Hv.
Qed.

Lemma get_daily_cash_vol_target_Ok parent self st v st' :
  cache st !! ("_vol_target", ALL_KEYNAME) = None ->
  get_daily_cash_vol_target parent self st = (Ok v, st') ->
  vol_target_dict (resolved_percentage_vol_target parent self)
                  (resolved_notional_trading_capital parent self)
                  (resolved_base_currency parent self) = Ok v.
Proof.
  intros Hmiss Hc. unfold get_daily_cash_vol_target in Hc.
  rewrite calc_or_cache_miss in Hc by done.
  apply on_miss_Ok in Hc as (st1 & Hc & _).
  rewrite _get_vol_target_eq in Hc. by simplify_eq.
Qed.

Lemma vol_target_dict_floats (pct capital : float) (currency : value) :
  (sqrt BUSINESS_DAYS_IN_YEAR =? 0)%float = false ->
  vol_target_dict (VFloat pct) (VFloat capital) currency
  = Ok (VDict (list_to_map
      [("base_currency", currency);
       ("percentage_vol_target", VFloat pct);
       ("notional_trading_capital", VFloat capital);
       ("annual_cash_vol_target", VFloat (capital * pct / 100)%float);
       ("daily_cash_vol_target",
        VFloat (capital * pct / 100 / sqrt BUSINESS_DAYS_IN_YEAR)%float)])).
Proof. intros Hroot. unfold vol_target_dict. simpl. by rewrite Hroot. Qed.

Lemma vol_target_dict_entries pct capital currency v :
  vol_target_dict pct capital currency = Ok v ->
  py_getitem v "percentage_vol_target" = Ok pct /\
  py_getitem v "notional_trading_capital" = Ok capital /\
  py_getitem v "base_currency" = Ok currency.
Proof.
  unfold vol_target_dict.
  destruct (py_mul _ _) as [p|e]; [|done].
  destruct (py_div p _) as [a|e]; [|done].
  destruct (py_div a _) as [d|e]; [|done].
  intros Hv. simplify_eq. simpl.
  split; [reflexivity|]. split; reflexivity.
Qed.

End VolTarget.

(** C4. The daily cash volatility target.  (i) On a first access, with the
    percentage target and the capital resolved to floats, the accessor
    returns a dictionary with exactly the five entries [base_currency],
    [percentage_vol_target], [notional_trading_capital],
    [annual_cash_vol_target = capital * percentage / 100] and
    [daily_cash_vol_target = annual / sqrt(business days per year)], and
    stores it under the all-instruments key of [_vol_target].  (ii) That
    attribute is in the stage's persistent list and not in its volatile
    list.  (iii) With a percentage of 10, a capital of 1,000,000 and 256
    business days, the annual target is 100,000 and the daily target is
    6250. *)
Theorem daily_cash_vol_target_formula `{Imports} :
  (forall parent self st (pct capital : float),
     cache st !! ("_vol_target", ALL_KEYNAME) = None ->
     resolved_percentage_vol_target parent self = VFloat pct ->
     resolved_notional_trading_capital parent self = VFloat capital ->
     (sqrt BUSINESS_DAYS_IN_YEAR =? 0)%float = false ->
     let annual := (capital * pct / 100)%float in
     let daily := (annual / sqrt BUSINESS_DAYS_IN_YEAR)%float in
     let d := VDict (list_to_map
       [("base_currency", resolved_base_currency parent self);
        ("percentage_vol_target", VFloat pct);
        ("notional_trading_capital", VFloat capital);
        ("annual_cash_vol_target", VFloat annual);
        ("daily_cash_vol_target", VFloat daily)]) in
     get_daily_cash_vol_target parent self st
     = (Ok d, Store (<[("_vol_target", ALL_KEYNAME) := d]> (cache st))
                    (("_vol_target", ALL_KEYNAME) :: calls st))) /\
  (forall a b c,
     "_vol_target" ∈ _dont_recalc (__init__ a b c) /\
     "_vol_target" ∉ _delete_on_recalc (__init__ a b c)) /\
  (forall parent self st,
     cache st !! ("_vol_target", ALL_KEYNAME) = None ->
     resolved_percentage_vol_target parent self = VFloat 10 ->
     resolved_notional_trading_capital parent self = VFloat 1000000 ->
     BUSINESS_DAYS_IN_YEAR = 256%float ->
     exists d st',
       get_daily_cash_vol_target parent self st = (Ok d, st') /\
       py_getitem d "annual_cash_vol_target" = Ok (VFloat 100000) /\
       py_getitem d "daily_cash_vol_target" = Ok (VFloat 6250)).
Proof.
  split; [|split].
  - intros parent self st pct capital Hmiss Hpct Hcap Hroot annual daily d.
    apply get_daily_cash_vol_target_miss; [done|].
    rewrite Hpct, Hcap. by apply vol_target_dict_floats.
  - intros a b c. simpl. split; [apply list_elem_of_here|].
    rewrite !elem_of_cons, elem_of_nil. intros Hin.
    repeat destruct Hin as [Hin|Hin]; done.
  - intros parent self st Hmiss Hpct Hcap Hdays.
    eexists _, _. split.
    + apply get_daily_cash_vol_target_miss; [done|].
      rewrite Hpct, Hcap. apply vol_target_dict_floats.
      by rewrite Hdays.
    + rewrite Hdays. split; reflexivity.
Qed.

Lemma daily_cash_vol_target_formula_witness :
  let m := @get_daily_cash_vol_target Example.imports Example.system
             Example.stage empty_store in
  m.1 = Ok (returned m VNone) /\
  cache m.2 !! ("_vol_target", "all") = Some (returned m VNone) /\
  py_getitem (returned m VNone) "daily_cash_vol_target" = Ok (VFloat 6250).
Proof.
  intros m.
  destruct (@daily_cash_vol_target_formula Example.imports) as (W1 & _ & W3).
  pose proof (W1 Example.system Example.stage empty_store 10%float
                1000000%float eq_refl eq_refl eq_refl eq_refl) as E1.
  destruct (W3 Example.system Example.stage empty_store
              eq_refl eq_refl eq_refl eq_refl) as (d & st' & E3 & _ & Hdaily).
  simpl in E1.
  split; [by_eval|]. split; [by_eval|].
  replace (returned m VNone) with d; [exact Hdaily|].
  unfold returned, m. by rewrite E3.
Defined.

(** C5. The three-tier fallback.  (i) What the first access of the
    volatility target stores for each of [percentage_vol_target],
    [notional_trading_capital] and [base_currency] is the constructor
    argument when that is not [None], else the value the configuration
    holds, else the compiled default.  (ii) The fallback runs inside the
    cached compute function only: once a value has been returned, every
    later access returns that same dictionary from the cache and leaves the
    store alone, even on a system with another configuration and for a
    stage built with other arguments. *)
Theorem three_tier_fallback `{Imports} :
  (forall override configured default,
     override <> VNone -> three_tier override configured default = override) /\
  (forall v default, three_tier VNone (Ok v) default = v) /\
  (forall e default, three_tier VNone (Raise e) default = default) /\
  (forall parent self st v st',
     cache st !! ("_vol_target", ALL_KEYNAME) = None ->
     get_daily_cash_vol_target parent self st = (Ok v, st') ->
     (py_getitem v "percentage_vol_target"
      = Ok (three_tier (_passed_percentage_vol_target self)
                       (config_parameters parent "percentage_vol_target")
                       (percentage_vol_target system_defaults)) /\
      py_getitem v "notional_trading_capital"
      = Ok (three_tier (_passed_notional_trading_capital self)
                       (config_parameters parent "notional_trading_capital")
                       (notional_trading_capital system_defaults)) /\
      py_getitem v "base_currency"
      = Ok (three_tier (_passed_base_currency self)
                       (config_parameters parent "base_currency")
                       (base_currency system_defaults))) /\
     forall parent' self' prog r st'',
       run_all parent' self' prog st' = (r, st'') ->
       get_daily_cash_vol_target parent' self' st'' = (Ok v, st'')).
Proof.
  split; [|split; [|split]].
  - intros override configured default Hne. by destruct override.
  - done.
  - done.
  - intros parent self st v st' Hmiss Hc. split.
    + apply get_daily_cash_vol_target_Ok in Hc; [|done].
      by apply vol_target_dict_entries in Hc.
    + intros parent' self' prog r st'' Hr.
      apply calc_or_cache_hit.
      apply (grows_keeps _ _ _ (run_all_grows _ _ _ _ _ _ Hr)).
      by eapply calc_or_cache_stores.
Qed.

Lemma three_tier_fallback_witness :
  let m := @get_daily_cash_vol_target Example.imports Example.system
             (__init__ VNone VNone (VStr "CHF")) empty_store in
  three_tier (VStr "CHF") (Ok (VStr "GBP")) (VStr "USD") = VStr "CHF" /\
  py_getitem (returned m VNone) "percentage_vol_target" = Ok (VFloat 10) /\
  py_getitem (returned m VNone) "notional_trading_capital" = Ok (VFloat 1000000) /\
  py_getitem (returned m VNone) "base_currency" = Ok (VStr "CHF") /\
  @get_daily_cash_vol_target Example.imports
     (with_parameter Example.system "percentage_vol_target" (Ok (VFloat 25)))
     Example.stage m.2 = (Ok (returned m VNone), m.2).
Proof.
  intros m.
  destruct (@three_tier_fallback Example.imports) as (W1 & _ & _ & W).
  destruct (W Example.system (__init__ VNone VNone (VStr "CHF")) empty_store
              (returned m VNone) m.2 eq_refl) as [(E1 & E2 & E3) Hlater];
    [by_eval|].
  split; [apply W1; discriminate|].
  split; [exact E1|]. split; [exact E2|]. split; [exact E3|].
  exact (Hlater _ Example.stage [] (Ok []) m.2 eq_refl).
Defined.

(** C9. The configuration tier swallows every exception.  (i) Whatever the
    store, the compute function returns the dictionary of the three
    resolved parameters and leaves the store alone; a configuration lookup
    enters it only through the fallback, which maps any raised exception,
    of whatever class, to the compiled default.  (ii) So with no
    constructor argument and a configuration lookup that raises, each
    parameter is the compiled default.  (iii) The only exceptions the
    compute function can raise are those of the arithmetic on the resolved
    values; none comes from the configuration. *)
Theorem config_tier_never_raises `{Imports} :
  (forall parent self key st,
     _get_vol_target parent key self st
     = (vol_target_dict (resolved_percentage_vol_target parent self)
                        (resolved_notional_trading_capital parent self)
                        (resolved_base_currency parent self), st)) /\
  (forall parent self e,
     (_passed_percentage_vol_target self = VNone ->
      config_parameters parent "percentage_vol_target" = Raise e ->
      resolved_percentage_vol_target parent self
      = percentage_vol_target system_defaults) /\
     (_passed_notional_trading_capital self = VNone ->
      config_parameters parent "notional_trading_capital" = Raise e ->
      resolved_notional_trading_capital parent self
      = notional_trading_capital system_defaults) /\
     (_passed_base_currency self = VNone ->
      config_parameters parent "base_currency" = Raise e ->
      resolved_base_currency parent self = base_currency system_defaults)) /\
  (forall parent self key st e st',
     _get_vol_target parent key self st = (Raise e, st') ->
     e = TypeError \/ e = ZeroDivisionError) /\
  (forall parent self st e1 e2 e3 (pct capital : float),
     _passed_percentage_vol_target self = VNone ->
     _passed_notional_trading_capital self = VNone ->
     _passed_base_currency self = VNone ->
     config_parameters parent "percentage_vol_target" = Raise e1 ->
     config_parameters parent "notional_trading_capital" = Raise e2 ->
     config_parameters parent "base_currency" = Raise e3 ->
     percentage_vol_target system_defaults = VFloat pct ->
     notional_trading_capital system_defaults = VFloat capital ->
     (sqrt BUSINESS_DAYS_IN_YEAR =? 0)%float = false ->
     cache st !! ("_vol_target", ALL_KEYNAME) = None ->
     exists d st',
       get_daily_cash_vol_target parent self st = (Ok d, st') /\
       py_getitem d "percentage_vol_target" = Ok (VFloat pct) /\
       py_getitem d "notional_trading_capital" = Ok (VFloat capital) /\
       py_getitem d "base_currency" = Ok (base_currency system_defaults)).
Proof.
  split; [|split; [|split]].
  - intros. apply _get_vol_target_eq.
  - intros parent self e.
    unfold resolved_percentage_vol_target, resolved_notional_trading_capital,
      resolved_base_currency.
    repeat split; intros -> ->; reflexivity.
  - intros parent self key st e st' Hv. rewrite _get_vol_target_eq in Hv.
    unfold vol_target_dict in Hv.
    assert (forall a b x, py_mul a b = Raise x -> x = TypeError) as Hmul.
    { intros a b x. destruct a, b; simpl; intros; by simplify_eq. }
    assert (forall a b x, py_div a b = Raise x ->
                          x = TypeError \/ x = ZeroDivisionError) as Hdiv.
    { intros a b x. destruct a, b; simpl; try (intros; simplify_eq; by left).
      destruct (_ =? _)%float; intros; simplify_eq. by right. }
    destruct (py_mul _ _) as [p|x] eqn:E1.
    + destruct (py_div p _) as [a|x] eqn:E2.
      * destruct (py_div a _) as [d|x] eqn:E3; [by simplify_eq|].
        simplify_eq. by eapply Hdiv.
      * simplify_eq. by eapply Hdiv.
    + simplify_eq. left. by eapply Hmul.
  - intros parent self st e1 e2 e3 pct capital Hp1 Hp2 Hp3 Hc1 Hc2 Hc3
      Hd1 Hd2 Hroot Hmiss.
    assert (vol_target_dict (resolved_percentage_vol_target parent self)
              (resolved_notional_trading_capital parent self)
              (resolved_base_currency parent self)
            = vol_target_dict (VFloat pct) (VFloat capital)
                (base_currency system_defaults)) as Hres.
    { unfold resolved_percentage_vol_target, resolved_notional_trading_capital,
        resolved_base_currency.
      by rewrite Hp1, Hp2, Hp3, Hc1, Hc2, Hc3, Hd1, Hd2. }
    eexists _, _. split.
    + apply get_daily_cash_vol_target_miss; [done|].
      rewrite Hres. by apply vol_target_dict_floats.
    + split; [reflexivity|]. split; reflexivity.
Qed.

Lemma config_tier_never_raises_witness :
  let m := @get_daily_cash_vol_target Example.imports
             Example.system_without_parameters Example.stage empty_store in
  m.1 = Ok (returned m VNone) /\
  @resolved_notional_trading_capital Example.imports
    Example.system_without_parameters Example.stage = VFloat 1000000 /\
  py_getitem (returned m VNone) "percentage_vol_target" = Ok (VFloat 16) /\
  py_getitem (returned m VNone) "base_currency" = Ok (VStr "USD") /\
  (@_get_vol_target Example.imports Example.system "all"
     (__init__ (VStr "ten") VNone VNone) empty_store).1 = Raise TypeError.
Proof.
  intros m.
  destruct (@config_tier_never_raises Example.imports) as (_ & W2 & W3 & W4).
  destruct (W4 Example.system_without_parameters Example.stage empty_store
              (AttributeError "parameters") (AttributeError "parameters")
              (AttributeError "parameters") 16%float 1000000%float
              eq_refl eq_refl eq_refl eq_refl eq_refl eq_refl eq_refl eq_refl
              eq_refl eq_refl) as (d & st' & E & Hpct & _ & Hcur).
  split; [by_eval|]. split.
  { exact (proj1 (proj2 (W2 Example.system_without_parameters Example.stage
                           (AttributeError "parameters"))) eq_refl eq_refl). }
  assert (returned m VNone = d) as ->.
  { unfold returned, m. by rewrite E. }
  split; [exact Hpct|]. split.
  - rewrite Hcur. reflexivity.
  - destruct (W3 Example.system (__init__ (VStr "ten") VNone VNone) "all"
                empty_store TypeError empty_store) as [_|Hz]; [|by_eval|done].
    by_eval.
Defined.

(** ** First accesses of the series accessors *)

Section Sizing.
Context `{Imports}.
Implicit Types (system parent : System) (self : PositionSizing).

Ltac run_monad :=
  unfold mbind, M_bind, bind, lift, mret, M_ret, ret.

Lemma get_instrument_currency_vol_miss parent self code st bv st1 pv r :
  cache st !! ("_instrument_currency_vol", code) = None ->
  get_block_value parent self code
    (Store (cache st) (("_instrument_currency_vol", code) :: calls st))
  = (Ok bv, st1) ->
  rawdata_get_daily_percentage_volatility parent code = Ok pv ->
  filled_product bv (VFrame pv) (true, false) "icv" = Ok r ->
  get_instrument_currency_vol parent self code st
  = (Ok r, Store (<[("_instrument_currency_vol", code) := r]> (cache st1))
                 (calls st1)).
Proof.
  intros Hmiss Hbv Hpv Hr. unfold get_instrument_currency_vol.
  rewrite calc_or_cache_miss by done. apply on_miss_Ok_intro.
  unfold _get_instrument_currency_vol, get_price_volatility.
  rewrite (bind_Ok _ _ _ _ _ Hbv). run_monad. rewrite Hpv.
  unfold filled_product in Hr. revert Hr. run_monad. unfold result_bind.
  destruct (multiply_df_single_column _ _ _) as [m|e]; [|done]. by intros ->.
Qed.

Lemma get_instrument_value_vol_miss parent self code st icv st1 fx st2 r :
  cache st !! ("_instrument_value_vol", code) = None ->
  get_instrument_currency_vol parent self code
    (Store (cache st) (("_instrument_value_vol", code) :: calls st))
  = (Ok icv, st1) ->
  get_fx_rate parent self code st1 = (Ok fx, st2) ->
  filled_product icv fx (false, true) "ivv" = Ok r ->
  get_instrument_value_vol parent self code st
  = (Ok r, Store (<[("_instrument_value_vol", code) := r]> (cache st2))
                 (calls st2)).
Proof.
  intros Hmiss Hicv Hfx Hr. unfold get_instrument_value_vol.
  rewrite calc_or_cache_miss by done. apply on_miss_Ok_intro.
  unfold _get_instrument_value_vol.
  rewrite (bind_Ok _ _ _ _ _ Hicv), (bind_Ok _ _ _ _ _ Hfx).
  unfold filled_product in Hr. revert Hr. run_monad. unfold result_bind.
  destruct (multiply_df_single_column _ _ _) as [m|e]; [|done]. by intros ->.
Qed.

Lemma get_volatility_scalar_miss parent self code st ivv st1 d st2 c :
  cache st !! ("_vol_scalar", code) = None ->
  get_instrument_value_vol parent self code
    (Store (cache st) (("_vol_scalar", code) :: calls st))
  = (Ok (VFrame ivv), st1) ->
  get_daily_cash_vol_target parent self st1 = (Ok d, st2) ->
  py_getitem d "daily_cash_vol_target" = Ok (VFloat c) ->
  let r := VFrame (Frame "vol_scalar"
             (map (fun row => (row.1, (c / row.2)%float)) (rows ivv))) in
  get_volatility_scalar parent self code st
  = (Ok r, Store (<[("_vol_scalar", code) := r]> (cache st2)) (calls st2)).
Proof.
  intros Hmiss Hivv Hd Hc r. unfold get_volatility_scalar.
  rewrite calc_or_cache_miss by done. apply on_miss_Ok_intro.
  unfold _get_volatility_scalar.
  rewrite (bind_Ok _ _ _ _ _ Hivv), (bind_Ok _ _ _ _ _ Hd).
  run_monad. by rewrite Hc.
Qed.

Lemma get_subsys_position_miss parent self code st vs st1 fc r :
  cache st !! ("_subsys_position", code) = None ->
  get_volatility_scalar parent self code
    (Store (cache st) (("_subsys_position", code) :: calls st))
  = (Ok vs, st1) ->
  combForecast_get_combined_forecast parent code = Ok fc ->
  position_formula vs (VFrame fc) (average_absolute_forecast system_defaults)
  = Ok r ->
  get_subsys_position parent self code st
  = (Ok r, Store (<[("_subsys_position", code) := r]> (cache st1)) (calls st1)).
Proof.
  intros Hmiss Hvs Hfc Hr. unfold get_subsys_position.
  rewrite calc_or_cache_miss by done. apply on_miss_Ok_intro.
  unfold _get_subsys_position, get_combined_forecast.
  rewrite (bind_Ok _ _ _ _ _ Hvs). run_monad. rewrite Hfc.
  unfold position_formula in Hr. revert Hr. run_monad. unfold result_bind.
  destruct (multiply_df_single_column _ _ _) as [m|e]; [|done].
  destruct (py_div m _) as [q|e]; [|done]. by intros ->.
Qed.

Lemma map_zip_with {A B C D} (f : C -> D) (g : A -> B -> C) l k :
  map f (zip_with g l k) = zip_with (fun a b => f (g a b)) l k.
Proof.
  revert k. induction l as [|a l IH]; intros [|b k]; simpl; [done..|].
  by rewrite IH.
Qed.

(** The position formula on two frames and a float divisor, row by row:
    on the joint index, the scalar is forward-filled, the forecast is taken
    as it is, and each product is divided by the average. *)
Lemma position_formula_rows (vs fc : frame) (average : float) :
  let idx := union_index (map fst (rows vs)) (map fst (rows fc)) in
  position_formula (VFrame vs) (VFrame fc) (VFloat average)
  = Ok (VFrame (Frame "ss_position"
      (zip_with (fun p q => (p.1, (p.2 * q.2 / average)%float))
                (ffill (reindex idx (rows vs))) (reindex idx (rows fc))))).
Proof.
  intros idx. unfold position_formula. simpl. unfold frame_map. simpl.
  by rewrite map_zip_with.
Qed.

End Sizing.

(** C6. Forward-fill pairing of each series combination.  On a first
    access: (i) the instrument currency vol is the product of the block
    value, forward-filled, and the daily percentage volatility, not filled;
    (ii) the instrument value vol is the product of the instrument currency
    vol, not filled, and the FX rate, forward-filled; (iii) the volatility
    scalar is the daily cash target divided by each entry of the instrument
    value vol as it stands, with no fill.  (iv) A product puts both series
    on their joint index and fills exactly the flagged ones.  (v) With
    block value [100, NaN] and volatility [0.01, 0.02] the instrument
    currency vol is [1.0, 2.0], both for the product alone and for the
    accessor run on a system with those inputs; a missing value of the
    operand that is not filled stays missing. *)
Theorem forward_fill_pairing `{Imports} :
  (forall parent self code st bv st1 pv r,
     cache st !! ("_instrument_currency_vol", code) = None ->
     get_block_value parent self code
       (Store (cache st) (("_instrument_currency_vol", code) :: calls st))
     = (Ok bv, st1) ->
     rawdata_get_daily_percentage_volatility parent code = Ok pv ->
     filled_product bv (VFrame pv) (true, false) "icv" = Ok r ->
     get_instrument_currency_vol parent self code st
     = (Ok r, Store (<[("_instrument_currency_vol", code) := r]> (cache st1))
                    (calls st1))) /\
  (forall parent self code st icv st1 fx st2 r,
     cache st !! ("_instrument_value_vol", code) = None ->
     get_instrument_currency_vol parent self code
       (Store (cache st) (("_instrument_value_vol", code) :: calls st))
     = (Ok icv, st1) ->
     get_fx_rate parent self code st1 = (Ok fx, st2) ->
     filled_product icv fx (false, true) "ivv" = Ok r ->
     get_instrument_value_vol parent self code st
     = (Ok r, Store (<[("_instrument_value_vol", code) := r]> (cache st2))
                    (calls st2))) /\
  (forall parent self code st ivv st1 d st2 c,
     cache st !! ("_vol_scalar", code) = None ->
     get_instrument_value_vol parent self code
       (Store (cache st) (("_vol_scalar", code) :: calls st))
     = (Ok (VFrame ivv), st1) ->
     get_daily_cash_vol_target parent self st1 = (Ok d, st2) ->
     py_getitem d "daily_cash_vol_target" = Ok (VFloat c) ->
     let r := VFrame (Frame "vol_scalar"
                (map (fun row => (row.1, (c / row.2)%float)) (rows ivv))) in
     get_volatility_scalar parent self code st
     = (Ok r, Store (<[("_vol_scalar", code) := r]> (cache st2)) (calls st2))) /\
  (forall (a b : frame) (fill : bool * bool) column,
     let idx := union_index (map fst (rows a)) (map fst (rows b)) in
     filled_product (VFrame a) (VFrame b) fill column
     = Ok (VFrame (Frame column
         (zip_with (fun p q => (p.1, (p.2 * q.2)%float))
            (if fill.1 then ffill (reindex idx (rows a)) else reindex idx (rows a))
            (if fill.2 then ffill (reindex idx (rows b)) else reindex idx (rows b)))))) /\
  filled_product (VFrame (Frame "price" [(1, 100%float); (2, nan)]))
                 (VFrame (Frame "vol" [(1, 0.01%float); (2, 0.02%float)]))
                 (true, false) "icv"
  = Ok (VFrame (Frame "icv" [(1, 1%float); (2, 2%float)])) /\
  (get_block_value Example.system Example.stage "EDOLLAR"
     empty_store).1
  = Ok (VFrame (Frame "price" [(1, 100%float); (2, nan)])) /\
  (get_instrument_currency_vol Example.system Example.stage
     "EDOLLAR" empty_store).1
  = Ok (VFrame (Frame "icv" [(1, 1%float); (2, 2%float)])) /\
  filled_product (VFrame (Frame "price" [(1, 100%float); (2, 100%float)]))
                 (VFrame (Frame "vol" [(1, 0.01%float); (2, nan)]))
                 (true, false) "icv"
  = Ok (VFrame (Frame "icv" [(1, 1%float); (2, nan)])) /\
  filled_product (VFrame (Frame "icv" [(1, 1%float); (2, nan)]))
                 (VFrame (Frame "fx" [(1, 0.5%float); (2, nan)]))
                 (false, true) "ivv"
  = Ok (VFrame (Frame "ivv" [(1, 0.5%float); (2, nan)])) /\
  filled_product (VFrame (Frame "icv" [(1, 1%float); (2, 2%float)]))
                 (VFrame (Frame "fx" [(1, 0.5%float); (2, nan)]))
                 (false, true) "ivv"
  = Ok (VFrame (Frame "ivv" [(1, 0.5%float); (2, 1%float)])).
Proof.
  split; [apply get_instrument_currency_vol_miss|].
  split; [apply get_instrument_value_vol_miss|].
  split; [apply get_volatility_scalar_miss|].
  split; [by intros a b [[] []] column|].
  split; [by_eval|]. split; [by_eval|]. split; [by_eval|].
  split; [by_eval|]. split; by_eval.
Qed.

Lemma forward_fill_pairing_witness :
  let bv := get_block_value Example.system Example.stage "EDOLLAR"
              (Store ∅ [("_instrument_currency_vol", "EDOLLAR")]) in
  let icv := VFrame (Frame "icv" [(1, 1%float); (2, 2%float)]) in
  let m1 := get_instrument_currency_vol Example.system Example.stage "EDOLLAR"
              (Store ∅ [("_instrument_value_vol", "EDOLLAR")]) in
  let m2 := @get_fx_rate Example.imports Example.system Example.stage
              "EDOLLAR" m1.2 in
  let ivv := Frame "ivv" [(1, 1%float); (2, 2%float)] in
  let m3 := @get_instrument_value_vol Example.imports Example.system
              Example.stage "EDOLLAR"
              (Store ∅ [("_vol_scalar", "EDOLLAR")]) in
  let m4 := @get_daily_cash_vol_target Example.imports Example.system
              Example.stage m3.2 in
  let vs := VFrame (Frame "vol_scalar" [(1, 6250%float); (2, 3125%float)]) in
  bv.1 = Ok (VFrame (Frame "price" [(1, 100%float); (2, nan)])) /\
  get_instrument_currency_vol Example.system Example.stage "EDOLLAR" empty_store
  = (Ok icv, Store (<[("_instrument_currency_vol", "EDOLLAR") := icv]> (cache bv.2))
                   (calls bv.2)) /\
  m2.1 = Ok (VFrame (Frame "fx" [(1, 1%float); (2, nan)])) /\
  @get_instrument_value_vol Example.imports Example.system Example.stage
    "EDOLLAR" empty_store
  = (Ok (VFrame ivv),
     Store (<[("_instrument_value_vol", "EDOLLAR") := VFrame ivv]> (cache m2.2))
           (calls m2.2)) /\
  @get_volatility_scalar Example.imports Example.system Example.stage
    "EDOLLAR" empty_store
  = (Ok vs, Store (<[("_vol_scalar", "EDOLLAR") := vs]> (cache m4.2)) (calls m4.2)).
Proof.
  intros bv icv m1 m2 ivv m3 m4 vs. split; [by_eval|].
  destruct (@forward_fill_pairing Example.imports) as (W1 & W2 & W3 & _).
  split.
  { refine (W1 Example.system Example.stage "EDOLLAR" empty_store
              (returned bv VNone) bv.2
              (Frame "vol" [(1, 0.01%float); (2, 0.02%float)]) icv
              eq_refl _ eq_refl _); by_eval. }
  split; [by_eval|]. split.
  { refine (W2 Example.system Example.stage "EDOLLAR" empty_store
              (returned m1 VNone) m1.2 (returned m2 VNone) m2.2 (VFrame ivv)
              eq_refl _ _ _); by_eval. }
  refine (W3 Example.system Example.stage "EDOLLAR" empty_store ivv m3.2
            (returned m4 VNone) m4.2 6250%float eq_refl _ _ _); by_eval.
Defined.

(** C7. The subsystem position.  (i) On a first access for an instrument
    the accessor returns, and stores under [_subsys_position] and that
    instrument, the volatility scalar times the combined forecast divided
    by the average absolute forecast.  (ii) Row by row on the joint index,
    that is [scalar * forecast / average] with the scalar forward-filled
    and the forecast taken as it is.  (iii) The attribute is in the
    stage's volatile list.  (iv) With a daily cash target of 6250, an
    instrument value vol of 5.97, a forecast of 7.62 and an average of 10,
    the volatility scalar is within 0.05 of 1046.9 and the position within
    0.05 of 797.7. *)
Theorem subsys_position_formula `{Imports} :
  (forall parent self code st vs st1 fc r,
     cache st !! ("_subsys_position", code) = None ->
     get_volatility_scalar parent self code
       (Store (cache st) (("_subsys_position", code) :: calls st))
     = (Ok vs, st1) ->
     combForecast_get_combined_forecast parent code = Ok fc ->
     position_formula vs (VFrame fc) (average_absolute_forecast system_defaults)
     = Ok r ->
     get_subsys_position parent self code st
     = (Ok r, Store (<[("_subsys_position", code) := r]> (cache st1))
                    (calls st1))) /\
  (forall (vs fc : frame) (average : float),
     let idx := union_index (map fst (rows vs)) (map fst (rows fc)) in
     position_formula (VFrame vs) (VFrame fc) (VFloat average)
     = Ok (VFrame (Frame "ss_position"
         (zip_with (fun p q => (p.1, (p.2 * q.2 / average)%float))
                   (ffill (reindex idx (rows vs))) (reindex idx (rows fc)))))) /\
  (forall a b c, "_subsys_position" ∈ _delete_on_recalc (__init__ a b c)) /\
  (let target := @get_daily_cash_vol_target Example.imports Example.system
                   Example.stage Example.store_with_value_vol in
   let scalar := @get_volatility_scalar Example.imports Example.system
                   Example.stage "EDOLLAR" Example.store_with_value_vol in
   let position := @get_subsys_position Example.imports Example.system
                     Example.stage "EDOLLAR" Example.store_with_value_vol in
   py_getitem (returned target VNone) "daily_cash_vol_target" = Ok (VFloat 6250) /\
   Example.store_with_value_vol.(cache) !! ("_instrument_value_vol", "EDOLLAR")
   = Some (VFrame (Frame "ivv" [(1, 5.97%float)])) /\
   value_on 1 (VFrame (returned
     (combForecast_get_combined_forecast Example.system "EDOLLAR", empty_store)
     (Frame "" []))) = 7.62%float /\
   average_absolute_forecast (@system_defaults Example.imports) = VFloat 10 /\
   approx (value_on 1 (returned scalar VNone)) 1046.9 0.05 = true /\
   approx (value_on 1 (returned position VNone)) 797.7 0.05 = true).
Proof.
  split; [apply get_subsys_position_miss|].
  split; [apply position_formula_rows|].
  split.
  { intros a b c. simpl. do 4 apply list_elem_of_further. apply list_elem_of_here. }
  repeat split; by_eval.
Qed.

Lemma subsys_position_formula_witness :
  let entered := Store (cache Example.store_with_value_vol)
                   (("_subsys_position", "EDOLLAR")
                    :: calls Example.store_with_value_vol) in
  let vs := @get_volatility_scalar Example.imports Example.system Example.stage
              "EDOLLAR" entered in
  let fc := Frame "comb_forecast" [(1, 7.62%float); (2, 7.62%float)] in
  let r := returned (position_formula (returned vs VNone) (VFrame fc) (VFloat 10),
                     empty_store) VNone in
  approx (value_on 1 r) 797.7 0.05 = true /\
  @get_subsys_position Example.imports Example.system Example.stage "EDOLLAR"
    Example.store_with_value_vol
  = (Ok r, Store (<[("_subsys_position", "EDOLLAR") := r]> (cache vs.2))
                 (calls vs.2)).
Proof.
  intros entered vs fc r. split; [by_eval|].
  destruct (@subsys_position_formula Example.imports) as (W & _).
  refine (W Example.system Example.stage "EDOLLAR" Example.store_with_value_vol
            (returned vs VNone) vs.2 fc r _ _ eq_refl _); by_eval.
Defined.

(** C10. The divisor of the position is the compiled default.  (i) For a
    stage built with any constructor arguments, on a system with any
    configuration, here even one that holds an entry named
    [average_absolute_forecast], a first access returns the scalar times
    the forecast divided by the [average_absolute_forecast] entry of the
    compiled defaults.  (ii) Replacing that configuration entry by
    anything, a value or a raised exception, changes nothing in what
    [get_subsys_position] does. *)
Theorem average_forecast_is_compiled_default `{Imports} :
  (forall parent entry a b c code st vs st1 fc r,
     let self := __init__ a b c in
     let parent' := with_parameter parent "average_absolute_forecast" entry in
     cache st !! ("_subsys_position", code) = None ->
     get_volatility_scalar parent' self code
       (Store (cache st) (("_subsys_position", code) :: calls st))
     = (Ok vs, st1) ->
     combForecast_get_combined_forecast parent code = Ok fc ->
     position_formula vs (VFrame fc) (average_absolute_forecast system_defaults)
     = Ok r ->
     get_subsys_position parent' self code st
     = (Ok r, Store (<[("_subsys_position", code) := r]> (cache st1))
                    (calls st1))) /\
  (forall parent self code st entry,
     get_subsys_position
       (with_parameter parent "average_absolute_forecast" entry) self code st
     = get_subsys_position parent self code st).
Proof.
  split.
  - intros parent entry a b c code st vs st1 fc r self parent' Hmiss Hvs Hfc Hr.
    by apply (get_subsys_position_miss parent' self code st vs st1 fc r).
  - intros parent self code st entry. reflexivity.
Qed.

Lemma average_forecast_is_compiled_default_witness :
  let configured := with_parameter Example.system "average_absolute_forecast"
                      (Ok (VFloat 20)) in
  let entered := Store (cache Example.store_with_value_vol)
                   (("_subsys_position", "EDOLLAR")
                    :: calls Example.store_with_value_vol) in
  let vs := @get_volatility_scalar Example.imports configured
              (__init__ VNone VNone VNone) "EDOLLAR" entered in
  let fc := Frame "comb_forecast" [(1, 7.62%float); (2, 7.62%float)] in
  let r := returned (position_formula (returned vs VNone) (VFrame fc) (VFloat 10),
                     empty_store) VNone in
  config_parameters configured "average_absolute_forecast" = Ok (VFloat 20) /\
  approx (value_on 1 r) 797.7 0.05 = true /\
  @get_subsys_position Example.imports configured (__init__ VNone VNone VNone)
    "EDOLLAR" Example.store_with_value_vol
  = (Ok r, Store (<[("_subsys_position", "EDOLLAR") := r]> (cache vs.2))
                 (calls vs.2)).
Proof.
  intros configured entered vs fc r.
  destruct (@average_forecast_is_compiled_default Example.imports) as (W1 & W2).
  split; [reflexivity|]. split; [by_eval|].
  refine (W1 Example.system (Ok (VFloat 20)) VNone VNone VNone "EDOLLAR"
            Example.store_with_value_vol (returned vs VNone) vs.2 fc r
            eq_refl _ eq_refl _); by_eval.
Defined.

(** C8 as stated fails: [get_combined_forecast] returns the upstream value
    and stores it nowhere, so not every accessor keeps its result under a
    cache attribute. *)
Lemma not_every_accessor_caches :
  ~ (forall a : accessor, @caches_its_result Example.imports a).
Proof.
  intros Hall. destruct (Hall CombinedForecast) as [attr Hattr].
  destruct (Hattr Example.system Example.stage "EDOLLAR" empty_store
              (VFrame (Frame "comb_forecast" [(1, 7.62%float); (2, 7.62%float)]))
              empty_store eq_refl) as [key Hkey].
  simpl in Hkey. by rewrite lookup_empty in Hkey.
Qed.

(** C8, amended.  (i) Each of the seven accessors of derived quantities is
    the resolver applied to a local compute function, to an attribute name
    of its own, one of those the constructor lists, and to the requested
    key (the all-instruments key for the volatility target), and what it
    returns sits in the cache under that slot.  (ii) No two of them share
    an attribute.  (iii) The three input
    accessors, [get_combined_forecast], [get_price_volatility] and
    [get_instrument_sizing_data], hand over what the upstream stage or the
    data source returns and leave the store as it was. *)
Theorem accessor_shapes `{Imports} :
  (forall a code s,
     slot_of a code = Some s ->
     s.2 = (if decide (a = DailyCashVolTarget) then ALL_KEYNAME else code) /\
     (forall p n b, s.1 ∈ (_delete_on_recalc (__init__ p n b)
                           ++ _dont_recalc (__init__ p n b))%list) /\
     (exists f, compute_fn a = Some f /\
        forall parent self,
          call a parent self code = calc_or_cache parent s.1 s.2 f self) /\
     (forall parent self st v st',
        call a parent self code st = (Ok v, st') -> cache st' !! s = Some v) /\
     caches_its_result a) /\
  (forall a b code code' s s',
     slot_of a code = Some s -> slot_of b code' = Some s' ->
     s.1 = s'.1 -> a = b) /\
  (forall a code,
     slot_of a code = None ->
     a ∈ [CombinedForecast; PriceVolatility; InstrumentSizingData] /\
     forall parent self st r st',
       call a parent self code st = (r, st') -> st' = st) /\
  (forall parent self code st,
     get_combined_forecast parent self code st
     = (VFrame <$> combForecast_get_combined_forecast parent code, st) /\
     get_price_volatility parent self code st
     = (VFrame <$> rawdata_get_daily_percentage_volatility parent code, st) /\
     get_instrument_sizing_data parent self code st
     = (price ← rawdata_daily_denominator_price parent code;
        move ← data_get_value_of_block_price_move parent code;
        mret (VTuple [VFrame price; VFloat move]), st)).
Proof.
  split; [|split; [|split]].
  - intros a code s Hs.
    split; [destruct a; simpl in *; by simplify_eq|].
    split.
    { intros p n b. destruct a; simpl in Hs; simplify_eq; simpl;
        rewrite !elem_of_cons; auto 10. }
    destruct (cached_has_compute_fn _ _ _ Hs) as [f Hf].
    split; [exists f; split; [done|]; intros; by apply call_calc_or_cache|].
    split; [intros; by eapply call_stores|].
    destruct a; simpl in Hs; simplify_eq.
    all: eexists; intros parent self code' st v st' Hc; eexists;
      by eapply calc_or_cache_stores.
  - intros a b code code' s s' Hs Hs' Heq.
    destruct a, b; simpl in *; by simplify_eq.
  - intros a code Hs.
    destruct a; simpl in Hs; simplify_eq; (split;
      [rewrite !elem_of_cons; auto|]); intros parent self st r st'; simpl;
      unfold get_combined_forecast, get_price_volatility,
        get_instrument_sizing_data, mbind, M_bind, bind, lift, mret, M_ret, ret.
    + destruct (combForecast_get_combined_forecast _ _); intros; by simplify_eq.
    + destruct (rawdata_get_daily_percentage_volatility _ _); intros; by simplify_eq.
    + destruct (rawdata_daily_denominator_price _ _); [|intros; by simplify_eq].
      destruct (data_get_value_of_block_price_move _ _); intros; by simplify_eq.
  - intros parent self code st.
    unfold get_combined_forecast, get_price_volatility,
      get_instrument_sizing_data, mbind, M_bind, bind, lift, mret, M_ret, ret,
      fmap, result_fmap, result_bind, result_ret.
    split; [|split].
    + by destruct (combForecast_get_combined_forecast _ _).
    + by destruct (rawdata_get_daily_percentage_volatility _ _).
    + destruct (rawdata_daily_denominator_price _ _); [|done].
      by destruct (data_get_value_of_block_price_move _ _).
Qed.

Lemma accessor_shapes_witness :
  let position := @get_subsys_position Example.imports Example.system
                    Example.stage "EDOLLAR" empty_store in
  let forecast := get_combined_forecast Example.system Example.stage "EDOLLAR"
                    position.2 in
  cache position.2 !! ("_subsys_position", "EDOLLAR")
    = Some (returned position VNone) /\
  forecast.2 = position.2 /\
  FxRate = FxRate.
Proof.
  intros position forecast.
  destruct (@accessor_shapes Example.imports) as (W1 & W2 & W3 & _).
  split; [|split].
  - destruct (W1 SubsysPosition "EDOLLAR" ("_subsys_position", "EDOLLAR") eq_refl)
      as (_ & _ & _ & Hstored & _).
    refine (Hstored Example.system Example.stage empty_store
              (returned position VNone) position.2 _). by_eval.
  - destruct (W3 CombinedForecast "EDOLLAR" eq_refl) as [_ Hsame].
    exact (Hsame Example.system Example.stage position.2 forecast.1 forecast.2
             (surjective_pairing _)).
  - exact (W2 FxRate FxRate "EDOLLAR" "GAS" ("_fx_rate", "EDOLLAR")
             ("_fx_rate", "GAS") eq_refl eq_refl eq_refl).
Defined.

(** * Further properties of the stage *)

(** ** The cache is transparent *)

Section TransparentRules.
Context {I : store -> Prop}.

Lemma transparent_mret {A} (a : A) : transparent I (mret a : M A) (Ok a).
Proof. intros st r st' HI Hm. by apply mret_inv in Hm as [-> ->]. Qed.

Lemma transparent_lift {A} (x : result A) : transparent I (lift x) x.
Proof. intros st r st' HI Hm. by apply lift_inv in Hm as [-> ->]. Qed.

Lemma transparent_bind {A B} (m : M A) (k : A -> M B) p q :
  transparent I m p -> (forall a, transparent I (k a) (q a)) ->
  transparent I (m ≫= k) (p ≫= q).
Proof.
  intros Hm Hk st r st' HI Hb.
  apply bind_inv in Hb as [(e & Hr & ->)|(a & st1 & Ha & Hb)].
  - destruct (Hm _ _ _ HI Hr) as [<- HI']. done.
  - destruct (Hm _ _ _ HI Ha) as [<- HI1]. by apply (Hk a _ _ _ HI1).
Qed.

Lemma calc_or_cache_transparent {Sys Stage : Type} (system : Sys) (stage : Stage)
    a k (f : Sys -> string -> Stage -> M value) p :
  (forall st v, I st -> cache st !! (a, k) = Some v -> p = Ok v) ->
  (forall st s, I st -> I (Store (cache st) (s :: calls st))) ->
  (forall st v, I st -> p = Ok v ->
                I (Store (<[(a, k) := v]> (cache st)) (calls st))) ->
  transparent I (f system k stage) p ->
  transparent I (calc_or_cache system a k f stage) p.
Proof.
  intros Hhit Henter Hstore Hf st r st' HI Hc.
  destruct (cache st !! (a, k)) as [w|] eqn:Hmiss.
  { rewrite (calc_or_cache_hit _ _ _ _ _ _ _ Hmiss) in Hc. simplify_eq.
    split; [|done]. symmetry. by eapply Hhit. }
  rewrite (calc_or_cache_miss _ _ _ _ _ _ Hmiss) in Hc.
  destruct r as [v|e].
  - apply on_miss_Ok in Hc as (st1 & Hc & ->).
    destruct (Hf _ _ _ (Henter _ (a, k) HI) Hc) as [Hp HI1].
    split; [done|]. by apply Hstore.
  - apply on_miss_Raise in Hc.
    by destruct (Hf _ _ _ (Henter _ (a, k) HI) Hc) as [Hp HI1].
Qed.

End TransparentRules.

Ltac step_transparent :=
  first
    [ apply transparent_bind; [|intros ?]
    | apply transparent_lift
    | apply transparent_mret
    | match goal with
      | |- transparent _ (let '(_, _) := ?p in _) _ => destruct p
      end ].

Section Transparency.
Context `{Imports}.
Implicit Types (parent : System) (self : PositionSizing).

(** Two accessor calls that share a slot compute the same thing. *)
Lemma slot_of_direct a b code code' s parent self :
  slot_of a code = Some s -> slot_of b code' = Some s ->
  direct a parent self code = direct b parent self code'.
Proof. destruct a, b; simpl; intros Ha Hb; by simplify_eq. Qed.

Lemma coherent_enter parent self st s :
  coherent parent self st ->
  coherent parent self (Store (cache st) (s :: calls st)).
Proof. done. Qed.

Lemma coherent_store parent self a code s st v :
  slot_of a code = Some s ->
  coherent parent self st -> direct a parent self code = Ok v ->
  coherent parent self (Store (<[s := v]> (cache st)) (calls st)).
Proof.
  intros Hs Hst Hv b code' s' w Hs' Hw. simpl in Hw.
  destruct (decide (s = s')) as [<-|Hne].
  - rewrite lookup_insert_eq in Hw. simplify_eq.
    by rewrite <- (slot_of_direct a b code code' s).
  - rewrite lookup_insert_ne in Hw by done. by eapply Hst.
Qed.

(** The resolver rule, specialised to a cached accessor of the stage. *)
Lemma accessor_transparent parent self a code attr key f :
  slot_of a code = Some (attr, key) ->
  transparent (coherent parent self) (f parent key self)
              (direct a parent self code) ->
  transparent (coherent parent self) (calc_or_cache parent attr key f self)
              (direct a parent self code).
Proof.
  intros Hs Hf. apply calc_or_cache_transparent; [| | |done].
  - intros st v Hst Hv. by eapply Hst.
  - intros st s Hst. by apply coherent_enter.
  - intros st v Hst Hv. by eapply coherent_store.
Qed.

Lemma get_combined_forecast_transparent I parent self code :
  transparent I (get_combined_forecast parent self code)
              (direct_combined_forecast parent code).
Proof.
  unfold get_combined_forecast, direct_combined_forecast.
  repeat step_transparent.
Qed.

Lemma get_price_volatility_transparent I parent self code :
  transparent I (get_price_volatility parent self code)
              (direct_price_volatility parent code).
Proof.
  unfold get_price_volatility, direct_price_volatility.
  repeat step_transparent.
Qed.

Lemma get_instrument_sizing_data_transparent I parent self code :
  transparent I (get_instrument_sizing_data parent self code)
              (direct_instrument_sizing_data parent code).
Proof.
  unfold get_instrument_sizing_data, direct_instrument_sizing_data.
  repeat step_transparent.
Qed.

Lemma get_daily_cash_vol_target_transparent parent self :
  transparent (coherent parent self) (get_daily_cash_vol_target parent self)
              (direct_daily_cash_vol_target parent self).
Proof.
  apply (accessor_transparent parent self DailyCashVolTarget ""); [done|].
  intros st r st' Hst Hv. rewrite _get_vol_target_eq in Hv. by simplify_eq.
Qed.

Lemma get_fx_rate_transparent parent self code :
  transparent (coherent parent self) (get_fx_rate parent self code)
              (direct_fx_rate parent self code).
Proof.
  apply (accessor_transparent parent self FxRate code); [done|].
  unfold _get_fx_rate, direct_fx_rate.
  step_transparent; [apply get_daily_cash_vol_target_transparent|].
  repeat step_transparent.
Qed.

Lemma get_block_value_transparent parent self code :
  transparent (coherent parent self) (get_block_value parent self code)
              (direct_block_value parent code).
Proof.
  apply (accessor_transparent parent self BlockValue code); [done|].
  unfold _get_block_value, direct_block_value.
  step_transparent; [apply get_instrument_sizing_data_transparent|].
  repeat step_transparent.
Qed.

Lemma get_instrument_currency_vol_transparent parent self code :
  transparent (coherent parent self) (get_instrument_currency_vol parent self code)
              (direct_instrument_currency_vol parent code).
Proof.
  apply (accessor_transparent parent self InstrumentCurrencyVol code); [done|].
  unfold _get_instrument_currency_vol, direct_instrument_currency_vol.
  step_transparent; [apply get_block_value_transparent|].
  step_transparent; [apply get_price_volatility_transparent|].
  repeat step_transparent.
Qed.

Lemma get_instrument_value_vol_transparent parent self code :
  transparent (coherent parent self) (get_instrument_value_vol parent self code)
              (direct_instrument_value_vol parent self code).
Proof.
  apply (accessor_transparent parent self InstrumentValueVol code); [done|].
  unfold _get_instrument_value_vol, direct_instrument_value_vol.
  step_transparent; [apply get_instrument_currency_vol_transparent|].
  step_transparent; [apply get_fx_rate_transparent|].
  repeat step_transparent.
Qed.

Lemma get_volatility_scalar_transparent parent self code :
  transparent (coherent parent self) (get_volatility_scalar parent self code)
              (direct_volatility_scalar parent self code).
Proof.
  apply (accessor_transparent parent self VolatilityScalar code); [done|].
  unfold _get_volatility_scalar, direct_volatility_scalar.
  step_transparent; [apply get_instrument_value_vol_transparent|].
  step_transparent; [apply get_daily_cash_vol_target_transparent|].
  repeat step_transparent.
Qed.

Lemma get_subsys_position_transparent parent self code :
  transparent (coherent parent self) (get_subsys_position parent self code)
              (direct_subsys_position parent self code).
Proof.
  apply (accessor_transparent parent self SubsysPosition code); [done|].
  unfold _get_subsys_position, direct_subsys_position.
  step_transparent; [apply get_volatility_scalar_transparent|].
  step_transparent; [apply get_combined_forecast_transparent|].
  repeat step_transparent.
Qed.

Lemma call_transparent a parent self code :
  transparent (coherent parent self) (call a parent self code)
              (direct a parent self code).
Proof.
  destruct a; simpl.
  - apply get_combined_forecast_transparent.
  - apply get_price_volatility_transparent.
  - apply get_instrument_sizing_data_transparent.
  - apply get_daily_cash_vol_target_transparent.
  - apply get_fx_rate_transparent.
  - apply get_block_value_transparent.
  - apply get_instrument_currency_vol_transparent.
  - apply get_instrument_value_vol_transparent.
  - apply get_volatility_scalar_transparent.
  - apply get_subsys_position_transparent.
Qed.

(** A series of calls keeps the store coherent, even if it stops on an
    exception. *)
Lemma run_all_coherent parent self prog st r st' :
  coherent parent self st ->
  run_all parent self prog st = (r, st') ->
  coherent parent self st'.
Proof.
  revert st r st'. induction prog as [|[a code] rest IH]; simpl;
    intros st r st' Hst Hr.
  - by apply mret_inv in Hr as [_ ->].
  - apply bind_inv in Hr as [(e & Hc & _)|(v & st1 & Hc & Hr)].
    + by destruct (call_transparent _ _ _ _ _ _ _ Hst Hc).
    + destruct (call_transparent _ _ _ _ _ _ _ Hst Hc) as [_ Hst1].
      apply bind_inv in Hr as [(e & Hr & _)|(vs & st2 & Hr & Hm)].
      * by eapply IH.
      * apply mret_inv in Hm as [_ ->]. by eapply IH.
Qed.

Lemma empty_store_coherent parent self : coherent parent self empty_store.
Proof. intros a code s v _ Hv. simpl in Hv. by rewrite lookup_empty in Hv. Qed.

Lemma invalidate_stage_coherent parent self volatile st :
  coherent parent self st ->
  coherent parent self (invalidate_stage volatile st).
Proof.
  intros Hst a code s v Hs Hv. simpl in Hv.
  apply map_lookup_filter_Some in Hv as [Hv _]. by eapply Hst.
Qed.

End Transparency.

(** X1. The cache never changes an answer.  A fresh store is coherent with
    any system and stage; on a coherent store every accessor call ends,
    whether it returns or raises, with exactly the outcome of the direct
    computation from the inputs, and leaves the store coherent; so does an
    invalidation, whatever attributes it clears. *)
Theorem cache_is_transparent `{Imports} parent self :
  coherent parent self empty_store /\
  (forall a code st r st',
     coherent parent self st ->
     call a parent self code st = (r, st') ->
     r = direct a parent self code /\ coherent parent self st') /\
  (forall volatile st,
     coherent parent self st ->
     coherent parent self (invalidate_stage volatile st)).
Proof.
  split; [apply empty_store_coherent|]. split.
  - intros a code st r st'. apply call_transparent.
  - intros volatile st. apply invalidate_stage_coherent.
Qed.

(** X2. Answers do not depend on history.  After any series of accessor
    calls on a fresh system, even one cut short by an exception, and with
    or without an invalidation after it, an accessor call has the same
    outcome as the same call on the fresh system. *)
Theorem same_answer_as_on_a_fresh_system `{Imports} parent self prog r0 st0 :
  run_all parent self prog empty_store = (r0, st0) ->
  forall a code,
    (call a parent self code st0).1 = (call a parent self code empty_store).1 /\
    forall volatile,
      (call a parent self code (invalidate_stage volatile st0)).1
      = (call a parent self code empty_store).1.
Proof.
  intros Hrun a code.
  pose proof (run_all_coherent _ _ _ _ _ _ (empty_store_coherent _ _) Hrun) as Hst.
  assert (forall st, coherent parent self st ->
                     (call a parent self code st).1 = direct a parent self code)
    as Hdirect.
  { intros st Hc. destruct (call a parent self code st) as [r st'] eqn:E.
    by destruct (call_transparent _ _ _ _ _ _ _ Hc E). }
  rewrite (Hdirect empty_store (empty_store_coherent _ _)).
  split; [by apply Hdirect|].
  intros volatile. by apply Hdirect, invalidate_stage_coherent.
Qed.

Lemma cache_is_transparent_witness :
  let m := @get_subsys_position Example.imports Example.system Example.stage
             "EDOLLAR" empty_store in
  let again := @get_subsys_position Example.imports Example.system
                 Example.stage "EDOLLAR" m.2 in
  again.1 = @direct Example.imports SubsysPosition Example.system Example.stage
              "EDOLLAR" /\
  again.1 = Ok (VFrame (Frame "ss_position"
                  [(1, 4762.5%float); (2, 2381.25%float)])).
Proof.
  intros m again.
  destruct (@cache_is_transparent Example.imports Example.system Example.stage)
    as (W0 & W1 & _).
  destruct (W1 SubsysPosition "EDOLLAR" empty_store m.1 m.2 W0
              (surjective_pairing _)) as [_ Hm].
  split.
  - exact (proj1 (W1 SubsysPosition "EDOLLAR" m.2 again.1 again.2 Hm
                    (surjective_pairing _))).
  - by_eval.
Defined.

Lemma same_answer_as_on_a_fresh_system_witness :
  let m := @run_all Example.imports Example.system Example.stage
             [(SubsysPosition, "EDOLLAR"); (FxRate, "NOFX"); (BlockValue, "GAS")]
             empty_store in
  m.1 = Raise (OtherError "no fx data") /\
  (@get_volatility_scalar Example.imports Example.system Example.stage
     "EDOLLAR" (invalidate_stage ["_vol_scalar"] m.2)).1
  = (@get_volatility_scalar Example.imports Example.system Example.stage
       "EDOLLAR" empty_store).1.
Proof.
  intros m. split; [by_eval|].
  refine (proj2 (@same_answer_as_on_a_fresh_system Example.imports
                   Example.system Example.stage
                   [(SubsysPosition, "EDOLLAR"); (FxRate, "NOFX"); (BlockValue, "GAS")]
                   m.1 m.2 (surjective_pairing _) VolatilityScalar "EDOLLAR")
                ["_vol_scalar"]).
Defined.

(** ** Other instruments are left alone *)

Section Isolation.
Context `{Imports}.
Implicit Types (parent : System) (self : PositionSizing).

#[global] Instance only_touches_refl code : Reflexive (only_touches code).
Proof. by intros st s _. Qed.

#[global] Instance only_touches_trans code : Transitive (only_touches code).
Proof. intros a b c Hab Hbc s Hs. by rewrite Hbc, Hab. Qed.

Lemma calc_or_cache_only_touches {Sys Stage : Type} (system : Sys) (stage : Stage)
    code a k (f : Sys -> string -> Stage -> M value) :
  own_slot code (a, k) ->
  respects (only_touches code) (f system k stage) ->
  respects (only_touches code) (calc_or_cache system a k f stage).
Proof.
  intros Hown Hf st r st' Hc.
  destruct (cache st !! (a, k)) as [w|] eqn:Hmiss.
  { rewrite (calc_or_cache_hit _ _ _ _ _ _ _ Hmiss) in Hc. by simplify_eq. }
  rewrite (calc_or_cache_miss _ _ _ _ _ _ Hmiss) in Hc.
  destruct r as [v|e].
  - apply on_miss_Ok in Hc as (st1 & Hc & ->).
    intros s Hs. simpl. rewrite lookup_insert_ne by (by intros <-).
    by apply (Hf _ _ _ Hc).
  - apply on_miss_Raise in Hc. intros s Hs. by apply (Hf _ _ _ Hc).
Qed.

Ltac own_here :=
  right; split; [done|]; simpl; rewrite !elem_of_cons; auto 10.

Lemma get_daily_cash_vol_target_only_touches code parent self :
  respects (only_touches code) (get_daily_cash_vol_target parent self).
Proof.
  apply calc_or_cache_only_touches; [by left|].
  apply _get_vol_target_respects, _.
Qed.

Lemma get_fx_rate_only_touches code parent self :
  respects (only_touches code) (get_fx_rate parent self code).
Proof.
  apply calc_or_cache_only_touches; [own_here|]. unfold _get_fx_rate.
  step_respects; [apply get_daily_cash_vol_target_only_touches|].
  repeat step_respects.
Qed.

Lemma get_block_value_only_touches code parent self :
  respects (only_touches code) (get_block_value parent self code).
Proof.
  apply calc_or_cache_only_touches; [own_here|].
  unfold _get_block_value, get_instrument_sizing_data. repeat step_respects.
Qed.

Lemma get_instrument_currency_vol_only_touches code parent self :
  respects (only_touches code) (get_instrument_currency_vol parent self code).
Proof.
  apply calc_or_cache_only_touches; [own_here|].
  unfold _get_instrument_currency_vol, get_price_volatility.
  step_respects; [apply get_block_value_only_touches|].
  repeat step_respects.
Qed.

Lemma get_instrument_value_vol_only_touches code parent self :
  respects (only_touches code) (get_instrument_value_vol parent self code).
Proof.
  apply calc_or_cache_only_touches; [own_here|].
  unfold _get_instrument_value_vol.
  step_respects; [apply get_instrument_currency_vol_only_touches|].
  step_respects; [apply get_fx_rate_only_touches|].
  repeat step_respects.
Qed.

Lemma get_volatility_scalar_only_touches code parent self :
  respects (only_touches code) (get_volatility_scalar parent self code).
Proof.
  apply calc_or_cache_only_touches; [own_here|].
  unfold _get_volatility_scalar.
  step_respects; [apply get_instrument_value_vol_only_touches|].
  step_respects; [apply get_daily_cash_vol_target_only_touches|].
  repeat step_respects.
Qed.

Lemma get_subsys_position_only_touches code parent self :
  respects (only_touches code) (get_subsys_position parent self code).
Proof.
  apply calc_or_cache_only_touches; [own_here|].
  unfold _get_subsys_position, get_combined_forecast.
  step_respects; [apply get_volatility_scalar_only_touches|].
  repeat step_respects.
Qed.

End Isolation.

(** X3. Cache isolation by key.  Whatever an accessor call for an
    instrument does, and whether it returns or raises, what the stage
    holds under its own attributes for any other instrument is exactly as
    before: its six volatile attributes under every other key, and
    [_vol_target] under every key but the all-instruments one.  (Entries
    that upstream stages keep under attributes of their own are not part
    of this model, and nothing is said about them.) *)
Theorem other_instruments_untouched `{Imports} a parent self code st r st' :
  call a parent self code st = (r, st') ->
  forall attr key,
    (attr ∈ ["_fx_rate"; "_block_value"; "_instrument_currency_vol";
             "_instrument_value_vol"; "_vol_scalar"; "_subsys_position"]
     /\ key <> code) \/
    (attr = "_vol_target" /\ key <> ALL_KEYNAME) ->
    cache st' !! (attr, key) = cache st !! (attr, key).
Proof.
  intros Hc attr key Hother.
  assert (respects (only_touches code) (call a parent self code)) as Hresp.
  { destruct a; simpl.
    - unfold get_combined_forecast. repeat step_respects.
    - unfold get_price_volatility. repeat step_respects.
    - unfold get_instrument_sizing_data. repeat step_respects.
    - apply get_daily_cash_vol_target_only_touches.
    - apply get_fx_rate_only_touches.
    - apply get_block_value_only_touches.
    - apply get_instrument_currency_vol_only_touches.
    - apply get_instrument_value_vol_only_touches.
    - apply get_volatility_scalar_only_touches.
    - apply get_subsys_position_only_touches. }
  apply (Hresp _ _ _ Hc). intros [Hown|[Hkey Hattr]].
  - destruct Hother as [[Hattr Hkey]|[-> Hkey]]; [|by simplify_eq].
    simplify_eq. rewrite !elem_of_cons, elem_of_nil in Hattr.
    repeat destruct Hattr as [Hattr|Hattr]; done.
  - simpl in Hkey, Hattr. destruct Hother as [[_ Hne]|[-> _]]; [done|].
    rewrite !elem_of_cons, elem_of_nil in Hattr.
    repeat destruct Hattr as [Hattr|Hattr]; done.
Qed.

Lemma other_instruments_untouched_witness :
  let before := (@get_subsys_position Example.imports Example.system
                   Example.stage "GAS" empty_store).2 in
  let m := @get_subsys_position Example.imports Example.system Example.stage
             "EDOLLAR" before in
  cache m.2 !! ("_subsys_position", "GAS")
  = cache before !! ("_subsys_position", "GAS").
Proof.
  intros before m.
  refine (@other_instruments_untouched Example.imports SubsysPosition
            Example.system Example.stage "EDOLLAR" before m.1 m.2
            (surjective_pairing _) "_subsys_position" "GAS" _).
  left. split; [|discriminate].
  do 5 apply list_elem_of_further. apply list_elem_of_here.
Defined.

(** ** Failures half way *)

(** X4. A missing forecast does not throw away the volatility scalar.  When
    [get_subsys_position] has obtained the volatility scalar and the
    combined forecast then raises, the call raises that same exception and
    stores no position, but the scalar stays cached; a retry once a
    forecast exists reads the scalar from the cache and returns the
    position computed from it. *)
Theorem missing_forecast_keeps_scalar `{Imports} parent self code st vs st1 e :
  cache st !! ("_subsys_position", code) = None ->
  get_volatility_scalar parent self code
    (Store (cache st) (("_subsys_position", code) :: calls st)) = (Ok vs, st1) ->
  combForecast_get_combined_forecast parent code = Raise e ->
  get_subsys_position parent self code st = (Raise e, st1) /\
  cache st1 !! ("_vol_scalar", code) = Some vs /\
  cache st1 !! ("_subsys_position", code) = None /\
  forall parent' fc r,
    combForecast_get_combined_forecast parent' code = Ok fc ->
    position_formula vs (VFrame fc) (average_absolute_forecast system_defaults)
    = Ok r ->
    get_subsys_position parent' self code st1
    = (Ok r, Store (<[("_subsys_position", code) := r]> (cache st1))
                   (("_subsys_position", code) :: calls st1)).
Proof.
  intros Hmiss Hvs Hfc.
  assert (cache st1 !! ("_vol_scalar", code) = Some vs) as Hscalar
    by (by eapply calc_or_cache_stores).
  assert (cache st1 !! ("_subsys_position", code) = None) as Hempty.
  { rewrite (grows_frame _ _ _
               (get_volatility_scalar_grows 6 _ _ _ (le_n _) _ _ _ Hvs))
      by (simpl; solve_level).
    done. }
  split; [|split; [done|split; [done|]]].
  - unfold get_subsys_position. rewrite calc_or_cache_miss by done.
    unfold on_miss, enter, _get_subsys_position, get_combined_forecast.
    unfold mbind, M_bind, bind, lift. simpl. rewrite Hvs. simpl. by rewrite Hfc.
  - intros parent' fc r Hfc' Hr.
    apply (get_subsys_position_miss parent' self code st1 vs
             (Store (cache st1) (("_subsys_position", code) :: calls st1)) fc r);
      [done| |done..].
    by apply calc_or_cache_hit.
Qed.

(** X5. The FX rate hangs on the whole volatility target.  [_get_fx_rate]
    reads the base currency out of the volatility target dictionary, so
    when that dictionary cannot be built, because the arithmetic on the
    resolved capital and percentage raises, [get_fx_rate] raises the same
    exception for every instrument, whatever FX data there is; the block
    value, which never asks for the target, is not affected. *)
Theorem fx_rate_needs_vol_target `{Imports} parent self code st e :
  coherent parent self st ->
  direct_daily_cash_vol_target parent self = Raise e ->
  (get_fx_rate parent self code st).1 = Raise e /\
  (get_daily_cash_vol_target parent self st).1 = Raise e /\
  (get_block_value parent self code st).1 = direct_block_value parent code.
Proof.
  intros Hst He. split; [|split].
  - destruct (get_fx_rate parent self code st) as [r st'] eqn:E.
    destruct (get_fx_rate_transparent _ _ _ _ _ _ Hst E) as [-> _].
    unfold direct_fx_rate. by rewrite He.
  - destruct (get_daily_cash_vol_target parent self st) as [r st'] eqn:E.
    by destruct (get_daily_cash_vol_target_transparent _ _ _ _ _ Hst E) as [-> _].
  - destruct (get_block_value parent self code st) as [r st'] eqn:E.
    by destruct (get_block_value_transparent _ _ _ _ _ _ Hst E) as [-> _].
Qed.

(** X6. The FX rate is asked for in the cached base currency.  Once a
    volatility target sits in the cache, a first [get_fx_rate] for an
    instrument asks the data source for that instrument against the
    [base_currency] entry of the cached dictionary, whatever the
    configuration and the constructor arguments now say, and returns or
    raises as the data source does. *)
Theorem fx_rate_uses_cached_currency `{Imports} parent self code st d currency :
  cache st !! ("_vol_target", ALL_KEYNAME) = Some d ->
  py_getitem d "base_currency" = Ok currency ->
  cache st !! ("_fx_rate", code) = None ->
  (get_fx_rate parent self code st).1
  = VFrame <$> data_get_fx_for_currency parent code currency.
Proof.
  intros Hd Hcur Hmiss. unfold get_fx_rate.
  rewrite calc_or_cache_miss by done.
  unfold on_miss, enter, set_item, _get_fx_rate, get_daily_cash_vol_target.
  unfold mbind at 1 2, M_bind, bind. simpl.
  rewrite (bind_Ok _ _ _ d (Store (cache st) (("_fx_rate", code) :: calls st)))
    by (by apply calc_or_cache_hit).
  unfold mbind, M_bind, bind, lift, mret, M_ret, ret. rewrite Hcur.
  by destruct (data_get_fx_for_currency parent code currency).
Qed.

(** X7. The block value, date by date.  On a coherent store, when the
    price series and the value of a price move are available,
    [get_block_value] returns the series with the dates and the column name
    of the price and, on each date, [(0.01 * price) * value_of_price_move],
    multiplied in that order. *)
Theorem block_value_formula `{Imports} parent self code st (price : frame)
    (move : float) :
  coherent parent self st ->
  rawdata_daily_denominator_price parent code = Ok price ->
  data_get_value_of_block_price_move parent code = Ok move ->
  (get_block_value parent self code st).1
  = Ok (VFrame (Frame (columns price)
          (map (fun row => (row.1, (0.01 * row.2 * move)%float)) (rows price)))).
Proof.
  intros Hst Hprice Hmove.
  destruct (get_block_value parent self code st) as [r st'] eqn:E.
  destruct (get_block_value_transparent _ _ _ _ _ _ Hst E) as [-> _].
  unfold direct_block_value, direct_instrument_sizing_data.
  rewrite Hprice, Hmove. simpl. unfold frame_map. simpl.
  by rewrite map_map.
Qed.

Lemma missing_forecast_keeps_scalar_witness :
  let entered := Store ∅ [("_subsys_position", "EDOLLAR")] in
  let vs := @get_volatility_scalar Example.imports
              Scenarios.system_without_forecast Example.stage "EDOLLAR" entered in
  let failed := @get_subsys_position Example.imports
                  Scenarios.system_without_forecast Example.stage "EDOLLAR"
                  empty_store in
  let r := VFrame (Frame "ss_position" [(1, 4762.5%float); (2, 2381.25%float)]) in
  failed = (Raise (OtherError "no forecast"), vs.2) /\
  cache vs.2 !! ("_vol_scalar", "EDOLLAR") = Some (returned vs VNone) /\
  @get_subsys_position Example.imports Example.system Example.stage "EDOLLAR" vs.2
  = (Ok r, Store (<[("_subsys_position", "EDOLLAR") := r]> (cache vs.2))
                 (("_subsys_position", "EDOLLAR") :: calls vs.2)).
Proof.
  intros entered vs failed r.
  destruct (@missing_forecast_keeps_scalar Example.imports
              Scenarios.system_without_forecast Example.stage "EDOLLAR"
              empty_store (returned vs VNone) vs.2 (OtherError "no forecast")
              eq_refl) as (W1 & W2 & _ & W4); [by_eval|reflexivity|].
  split; [exact W1|]. split; [exact W2|].
  refine (W4 Example.system
            (Frame "comb_forecast" [(1, 7.62%float); (2, 7.62%float)]) r
            eq_refl _).
  by_eval.
Defined.

Lemma fx_rate_needs_vol_target_witness :
  (@get_fx_rate Example.imports Example.system Scenarios.stage_with_bad_capital
     "EDOLLAR" empty_store).1 = Raise TypeError /\
  (get_block_value Example.system Scenarios.stage_with_bad_capital
     "EDOLLAR" empty_store).1
  = Ok (VFrame (Frame "price" [(1, 100%float); (2, nan)])).
Proof.
  destruct (@fx_rate_needs_vol_target Example.imports Example.system
              Scenarios.stage_with_bad_capital "EDOLLAR" empty_store TypeError
              (empty_store_coherent _ _) eq_refl) as (W1 & _ & W3).
  split; [exact W1|by_eval].
Defined.

Lemma fx_rate_uses_cached_currency_witness :
  let swiss := (@get_daily_cash_vol_target Example.imports
                  Scenarios.system_by_currency
                  (__init__ VNone VNone (VStr "CHF")) empty_store) in
  (@get_fx_rate Example.imports Scenarios.system_by_currency Example.stage
     "EDOLLAR" swiss.2).1
  = Ok (VFrame (Frame "fx" [(1, 2%float)])) /\
  (@get_fx_rate Example.imports Scenarios.system_by_currency Example.stage
     "EDOLLAR" empty_store).1
  = Ok (VFrame (Frame "fx" [(1, 1%float)])).
Proof.
  intros swiss. split; [|by_eval].
  refine (@fx_rate_uses_cached_currency Example.imports
            Scenarios.system_by_currency Example.stage "EDOLLAR" swiss.2
            (returned swiss VNone) (VStr "CHF") _ _ _); by_eval.
Defined.

Lemma block_value_formula_witness :
  (get_block_value Example.system Example.stage "EDOLLAR" empty_store).1
  = Ok (VFrame (Frame "price" [(1, 100%float); (2, nan)])).
Proof.
  exact (@block_value_formula Example.imports Example.system Example.stage
           "EDOLLAR" empty_store
           (Frame "price" [(1, 100%float); (2, nan)]) 100%float
           (empty_store_coherent _ _) eq_refl eq_refl).
Defined.

(** * The roll calendar script *)

Module rollcalendars_facts.
Import rollcalendars.

Section Facts.
Context {AllPrices Prices Parameters Calendar Verdict : Type}.
Context (lib : Collaborators AllPrices Prices Parameters Calendar Verdict).
Implicit Types (w : world Calendar) (new : list (event Calendar)).

Lemma added_refl w : added w w [].
Proof. done. Qed.

Lemma added_nil w lines : added w (World (log w) lines) [].
Proof. done. Qed.

Lemma added_cons w l lines ev new :
  added w (World l lines) new -> added w (World (ev :: l) lines) (ev :: new).
Proof. unfold added. simpl. by intros ->. Qed.

End Facts.

Ltac solve_added :=
  repeat first [ apply added_refl | apply added_nil | apply added_cons ].

Ltac run_script :=
  unfold build_and_write_roll_calendar, check_saved_roll_calendar,
    mbind, IO_bind, mret, IO_ret, call_lib, print, print_calendar, input,
    csv_add_roll_calendar;
  simpl;
  repeat (case_match; simplify_eq/=).

Section Properties.
Context {AllPrices Prices Parameters Calendar Verdict : Type}.
Context (lib : Collaborators AllPrices Prices Parameters Calendar Verdict).
Implicit Types (w : world Calendar) (new : list (event Calendar)).

(** X8. What a write presupposes, and what it does not.  (i) Whatever the
    library does, a run of [build_and_write_roll_calendar] calls
    [add_roll_calendar] at most once; when it does, it is on the requested
    datapath and instrument with [ignore_duplication=True], for the
    calendar created from that instrument's final prices and roll
    parameters, after both check methods have been called on it and have
    returned rather than raised, and, when confirmation was requested,
    after the line typed was exactly [yes].  (ii) What the checks return
    is dropped: a library whose checks return other verdicts, but raise in
    the same cases, gives the same run, write included. *)
Theorem only_checked_calendar_is_written :
  (forall code datapath ask w r w',
     build_and_write_roll_calendar lib code datapath ask w = (r, w') ->
     exists new,
       added w w' new /\
       (filter (fun ev => is_write ev = true) new = [] \/
        exists calendar all_prices prices parameters verdict1 verdict2,
          filter (fun ev => is_write ev = true) new
          = [AddRollCalendar datapath code calendar true] /\
          get_all_prices_for_instrument lib code = Ok all_prices /\
          final_prices lib all_prices = Ok prices /\
          get_roll_parameters lib code = Ok parameters /\
          create_from_prices lib prices parameters = Ok calendar /\
          check_if_date_index_monotonic lib calendar = Ok verdict1 /\
          check_dates_are_valid_for_prices lib calendar prices = Ok verdict2 /\
          (ask = true -> exists rest, stdin w = "yes" :: rest))) /\
  (forall (Verdict' : Type) (g : Verdict -> Verdict') code datapath ask w,
     build_and_write_roll_calendar (map_verdicts g lib) code datapath ask w
     = build_and_write_roll_calendar lib code datapath ask w).
Proof.
  split.
  - intros code datapath ask w r w' Hrun. revert Hrun.
    run_script; intros; simplify_eq/=;
      (eexists; split; [solve_added|]);
      first [ by left
            | right; repeat match goal with u : unit |- _ => destruct u end;
              eexists _, _, _, _, _, _; repeat split; eauto; done ].
  - intros Verdict' g code datapath ask w.
    unfold build_and_write_roll_calendar, map_verdicts, mbind, IO_bind, mret,
      IO_ret, call_lib, print, input, csv_add_roll_calendar, fmap, result_fmap.
    simpl. repeat (case_match; simplify_eq/=); done.
Qed.

(** X9. Declining is not a failure.  With confirmation requested and a
    typed line other than [yes], a run never calls [add_roll_calendar];
    if it returns, it has read exactly that one line and its last act was
    to print [Not writing]; if it raises, it raised before asking, with
    the terminal input untouched. *)
Theorem declined_means_not_written code datapath w line rest r w' :
  stdin w = line :: rest -> line <> "yes" ->
  build_and_write_roll_calendar lib code datapath true w = (r, w') ->
  exists new,
    added w w' new /\
    filter (fun ev => is_write ev = true) new = [] /\
    (forall calendar, r = Ok calendar ->
       stdin w' = rest /\ head new = Some (Printed "Not writing")) /\
    (forall e, r = Raise e ->
       stdin w' = line :: rest /\
       filter (fun ev => is_question ev = true) new = []).
Proof.
  intros Hin Hline Hrun. revert Hrun. run_script; intros; simplify_eq/=;
    (eexists; split; [solve_added|]);
    repeat split; intros; simplify_eq/=; done.
Qed.

(** X10. A run without confirmation never touches the terminal input.  With
    [check_before_writing=False] no question is asked and no line is read,
    whatever happens; and if the run returns a calendar, it has called
    [add_roll_calendar] exactly once, for that calendar, and that call
    succeeded. *)
Theorem unattended_run_never_asks code datapath w r w' :
  build_and_write_roll_calendar lib code datapath false w = (r, w') ->
  stdin w' = stdin w /\
  exists new,
    added w w' new /\
    filter (fun ev => is_question ev = true) new = [] /\
    forall calendar, r = Ok calendar ->
      filter (fun ev => is_write ev = true) new
      = [AddRollCalendar datapath code calendar true] /\
      add_roll_calendar lib datapath code calendar true = Ok tt.
Proof.
  intros Hrun. revert Hrun. run_script; intros; simplify_eq/=;
    (split; [done|]); (eexists; split; [solve_added|]);
    (split; [done|]); intros; simplify_eq/=;
    repeat match goal with u : unit |- _ => destruct u end; done.
Qed.

(** X11. Checking a saved calendar only reads.  (i)
    [check_saved_roll_calendar] never calls [add_roll_calendar], never asks
    a question and reads no line; when it returns, the calendar is the one
    the csv store holds for the instrument, it has been printed, and both
    check methods have been called on it, the second against the
    instrument's final prices, and have returned rather than raised.
    (ii) What the checks return is dropped: a library whose checks return
    other verdicts, but raise in the same cases, gives the same run. *)
Theorem check_saved_only_reads :
  (forall code datapath w r w',
     check_saved_roll_calendar lib code datapath w = (r, w') ->
     stdin w' = stdin w /\
     exists new,
       added w w' new /\
       filter (fun ev => is_write ev = true) new = [] /\
       filter (fun ev => is_question ev = true) new = [] /\
       forall calendar, r = Ok calendar ->
         get_roll_calendar lib datapath code = Ok calendar /\
         PrintedCalendar calendar ∈ new /\
         exists all_prices prices verdict1 verdict2,
           get_all_prices_for_instrument lib code = Ok all_prices /\
           final_prices lib all_prices = Ok prices /\
           check_if_date_index_monotonic lib calendar = Ok verdict1 /\
           check_dates_are_valid_for_prices lib calendar prices = Ok verdict2) /\
  (forall (Verdict' : Type) (g : Verdict -> Verdict') code datapath w,
     check_saved_roll_calendar (map_verdicts g lib) code datapath w
     = check_saved_roll_calendar lib code datapath w).
Proof.
  split.
  - intros code datapath w r w' Hrun. revert Hrun.
    run_script; intros; simplify_eq/=;
      (split; [done|]); (eexists; split; [solve_added|]);
      (split; [done|]); (split; [done|]); intros; simplify_eq/=;
      repeat match goal with u : unit |- _ => destruct u end;
      (split; [done|]); (split; [rewrite !elem_of_cons; auto|]);
      eexists _, _, _, _; repeat split; eauto.
  - intros Verdict' g code datapath w.
    unfold check_saved_roll_calendar, map_verdicts, mbind, IO_bind, mret,
      IO_ret, call_lib, print, print_calendar, fmap, result_fmap.
    simpl. repeat (case_match; simplify_eq/=); done.
Qed.

End Properties.
End rollcalendars_facts.

Lemma only_checked_calendar_is_written_witness :
  let w := rollcalendars.World (Calendar:=list Z) [] ["yes"] in
  let run := rollcalendars.build_and_write_roll_calendar
               rollcalendars.corn_library_failing_checks "CORN" (Some "rolls")
               true w in
  rollcalendars.check_if_date_index_monotonic
    rollcalendars.corn_library_failing_checks [4; 3; 1; 2] = Ok false /\
  run.1 = Ok [4; 3; 1; 2] /\
  exists new,
    rollcalendars.added w run.2 new /\
    filter (fun ev => rollcalendars.is_write ev = true) new
    = [rollcalendars.AddRollCalendar (Some "rolls") "CORN" [4; 3; 1; 2] true].
Proof.
  intros w run. split; [reflexivity|]. split; [reflexivity|].
  destruct (proj1 (rollcalendars_facts.only_checked_calendar_is_written
                     rollcalendars.corn_library_failing_checks)
              "CORN" (Some "rolls") true w run.1 run.2
              (surjective_pairing _)) as (new & Hnew & Hwrites).
  exists new. split; [exact Hnew|].
  unfold rollcalendars.added in Hnew. simpl in Hnew.
  rewrite app_nil_r in Hnew. by rewrite <- Hnew.
Defined.

Lemma declined_means_not_written_witness :
  let w := rollcalendars.World (Calendar:=list Z) [] ["no"; "yes"] in
  let run := rollcalendars.build_and_write_roll_calendar
               rollcalendars.corn_library "CORN" None true w in
  run.1 = Ok [4; 3; 1; 2] /\
  rollcalendars.stdin run.2 = ["yes"] /\
  exists new,
    rollcalendars.added w run.2 new /\
    filter (fun ev => rollcalendars.is_write ev = true) new = [].
Proof.
  intros w run. split; [reflexivity|].
  destruct (rollcalendars_facts.declined_means_not_written
              rollcalendars.corn_library "CORN" None w "no" ["yes"] run.1 run.2
              eq_refl) as (new & Hnew & Hnone & Hok & _);
    [discriminate|apply surjective_pairing|].
  split; [exact (proj1 (Hok [4; 3; 1; 2] eq_refl))|].
  by exists new.
Defined.

Lemma unattended_run_never_asks_witness :
  let w := rollcalendars.World (Calendar:=list Z) [] ["no"] in
  let run := rollcalendars.build_and_write_roll_calendar
               rollcalendars.corn_library "CORN" (Some "rolls") false w in
  run.1 = Ok [4; 3; 1; 2] /\
  rollcalendars.stdin run.2 = ["no"] /\
  (rollcalendars.build_and_write_roll_calendar
     rollcalendars.corn_library "WHEAT" (Some "rolls") false w).1
  = Raise (KeyError "WHEAT").
Proof.
  intros w run. split; [reflexivity|]. split; [|reflexivity].
  exact (proj1 (rollcalendars_facts.unattended_run_never_asks
                  rollcalendars.corn_library "CORN" (Some "rolls") w run.1 run.2
                  (surjective_pairing _))).
Defined.

Lemma check_saved_only_reads_witness :
  let w := rollcalendars.World (Calendar:=list Z) [] ["yes"] in
  let run := rollcalendars.check_saved_roll_calendar
               rollcalendars.corn_library_failing_checks "CORN" None w in
  rollcalendars.check_dates_are_valid_for_prices
    rollcalendars.corn_library_failing_checks [4; 3; 1; 2] [3; 1; 2] = Ok false /\
  run.1 = Ok [4; 3; 1; 2] /\
  rollcalendars.stdin run.2 = ["yes"] /\
  rollcalendars.get_roll_calendar rollcalendars.corn_library_failing_checks
    None "CORN" = Ok [4; 3; 1; 2].
Proof.
  intros w run. split; [reflexivity|]. split; [reflexivity|].
  destruct (proj1 (rollcalendars_facts.check_saved_only_reads
                     rollcalendars.corn_library_failing_checks)
              "CORN" None w run.1 run.2
              (surjective_pairing _)) as (Hin & new & _ & _ & _ & Hok).
  split; [exact Hin|].
  exact (proj1 (Hok [4; 3; 1; 2] eq_refl)).
Defined.

(** ** The configuration entries the stage reads *)

Section ConfigurationKeys.
Context `{Imports}.
Implicit Types (parent : System) (self : PositionSizing).



Variables (key : string) (entry : result value).
Hypothesis key_pct : key <> "percentage_vol_target".
Hypothesis key_capital : key <> "notional_trading_capital".
Hypothesis key_currency : key <> "base_currency".






End ConfigurationKeys.


